(** * Bear_Spotted_Project: the marker / view-state controller of [src/App.js]

    A shallow embedding of the event handlers of the React component [App]
    and of its two children [Locate] and [Search], followed by the properties
    the specification states about them.

    The handlers are JavaScript closures over React state ([useState],
    [useRef]) and over the state of the [usePlacesAutocomplete] hook.  They
    are embedded as computations in a small state-and-exception monad [JS]
    over a record [World] that holds exactly the cells the closures capture,
    plus the observable output of the program (the console, the calls made on
    the map instance, the requests sent to outside services). *)

From Stdlib Require Import ZArith String Ascii List Floats Bool Lia.
Import ListNotations.
Local Open Scope string_scope.
Local Open Scope list_scope.
Local Open Scope Z_scope.

(* 37.7749 and -122.4194 are rounded to binary64, as JavaScript rounds them. *)
Set Warnings "-inexact-float".

(* ================================================================== *)
(** * Data *)

(** [{ lat, lng }] object literals (App.js 38-41, 87, 166-169, 209).  The
    components are JavaScript numbers, that is IEEE-754 binary64. *)
Module LatLngLiteral.
Record t : Type := Build { lat : float; lng : float }.
End LatLngLiteral.

(** A [Date] is a count of milliseconds since the epoch. *)
Definition Date : Type := Z.

(** The objects pushed on the [markers] array (App.js 68-72). *)
Module Marker.
Record t : Type := Build { lat : float; lng : float; time : Date }.
End Marker.

(** ** [Date.prototype.toISOString]

    The key of a marker is [marker.time.toISOString()] (App.js 119).  The
    method is a built-in of the language: ECMA-262 formats a time value [t]
    as [YYYY-MM-DDTHH:mm:ss.sssZ], with the year of the proleptic Gregorian
    calendar in UTC, written with four digits from 0 to 9999 and with a sign
    and six digits otherwise.  The civil date of a day number is computed in
    closed form over the 400-year cycle of 146097 days. *)
Definition msPerDay : Z := 86400000.
Definition Day (t : Date) : Z := t / msPerDay.
Definition HourFromTime (t : Date) : Z := (t / 3600000) mod 24.
Definition MinFromTime (t : Date) : Z := (t / 60000) mod 60.
Definition SecFromTime (t : Date) : Z := (t / 1000) mod 60.
Definition msFromTime (t : Date) : Z := t mod 1000.

(** Year of the era (0..399) and day of the year (counted from 1 March) of a
    day of the era (0..146096). *)
Definition doe_yoe (doe : Z) : Z :=
  (doe - doe / 1460 + doe / 36524 - doe / 146096) / 365.

Definition doe_doy (doe : Z) : Z :=
  let yoe := doe_yoe doe in doe - (365 * yoe + yoe / 4 - yoe / 100).

Definition doy_mp (doy : Z) : Z := (5 * doy + 2) / 153.

Definition doy_day (doy : Z) : Z := doy - (153 * doy_mp doy + 2) / 5 + 1.

Definition mp_month (mp : Z) : Z := if mp <? 10 then mp + 3 else mp - 9.

(** (year, month 1..12, day 1..31) of a day number counted from 1970-01-01. *)
Definition civil_from_days (day : Z) : Z * Z * Z :=
  let z := day + 719468 in
  let era := z / 146097 in
  let doe := z mod 146097 in
  let yoe := doe_yoe doe in
  let doy := doe_doy doe in
  let m := mp_month (doy_mp doy) in
  (yoe + era * 400 + (if m <=? 2 then 1 else 0), m, doy_day doy).

(** The day number of a civil date, the inverse of [civil_from_days]. *)
Definition days_from_civil (ymd : Z * Z * Z) : Z :=
  let '(y, m, d) := ymd in
  let y' := y - (if m <=? 2 then 1 else 0) in
  let era := y' / 400 in
  let yoe := y' mod 400 in
  let doy := (153 * (if 2 <? m then m - 3 else m + 9) + 2) / 5 + d - 1 in
  let doe := yoe * 365 + yoe / 4 - yoe / 100 + doy in
  era * 146097 + doe - 719468.

Definition digit (n : Z) : ascii := ascii_of_nat (48 + Z.to_nat n).

Definition pad2 (n : Z) : string :=
  String (digit (n / 10)) (String (digit (n mod 10)) "").

Definition pad3 (n : Z) : string :=
  String (digit (n / 100)) (pad2 (n mod 100)).

Definition pad4 (n : Z) : string :=
  String (digit (n / 1000)) (pad3 (n mod 1000)).

Definition pad6 (n : Z) : string :=
  pad2 (n / 10000) ++ pad4 (n mod 10000).

Definition year_string (y : Z) : string :=
  if (0 <=? y) && (y <=? 9999) then pad4 y
  else if y <? 0 then "-" ++ pad6 (- y) else "+" ++ pad6 y.

Definition toISOString (t : Date) : string :=
  let '(y, m, d) := civil_from_days (Day t) in
  year_string y ++ "-" ++ pad2 m ++ "-" ++ pad2 d ++ "T" ++
  pad2 (HourFromTime t) ++ ":" ++ pad2 (MinFromTime t) ++ ":" ++
  pad2 (SecFromTime t) ++ "." ++ pad3 (msFromTime t) ++ "Z".

(** The time values a [Date] can hold: 100 000 000 days either side of the
    epoch.  [new Date()] always yields one. *)
Definition valid_time (t : Date) : Prop :=
  -8640000000000000 <= t <= 8640000000000000.

(** The click event handed over by [<GoogleMap onClick>]: the handler only
    calls [e.latLng.lat()] and [e.latLng.lng()]. *)
Module MapMouseEvent.
Record t : Type := Build { latLng : LatLngLiteral.t }.
End MapMouseEvent.

(** The argument of the success callback of
    [navigator.geolocation.getCurrentPosition] (App.js 164-169). *)
Module GeolocationPosition.
Record Coordinates : Type := BuildCoords { latitude : float; longitude : float }.
Record t : Type := Build { coords : Coordinates; timestamp : Z }.
End GeolocationPosition.

(** The map instance is created by Google's Maps library, which is not part
    of the repository; the program only holds a reference to it and calls
    two of its methods. *)
Module GoogleMap.

Inductive Call : Type :=
| CallPanTo (c : LatLngLiteral.t)
| CallSetZoom (z : Z).

(** Modelled from the spec: the mock view of section 8.  It remembers the
    last pan target and zoom level, and keeps the history of the calls made
    on it. *)
Record t : Type := Build {
  center : LatLngLiteral.t;
  zoom : Z;
  calls : list Call
}.

(** Modelled from the spec: section 6, the view handle "exposes
    pan(coordinate) and setZoom(level)". *)
Definition panTo (c : LatLngLiteral.t) (m : t) : t :=
  {| center := c; zoom := zoom m; calls := calls m ++ [CallPanTo c] |}.

(** Modelled from the spec: section 6, as [panTo]. *)
Definition setZoom (z : Z) (m : t) : t :=
  {| center := center m; zoom := z; calls := calls m ++ [CallSetZoom z] |}.

End GoogleMap.

(** [const center] (App.js 38-41) and the [zoom={8}] prop (App.js 109): the
    view a freshly created map starts from. *)
Definition center : LatLngLiteral.t :=
  {| LatLngLiteral.lat := 37.7749%float; LatLngLiteral.lng := (-122.4194)%float |}.

Definition initial_map : GoogleMap.t :=
  {| GoogleMap.center := center; GoogleMap.zoom := 8; GoogleMap.calls := [] |}.

(** The [usePlacesAutocomplete] hook comes from the package
    use-places-autocomplete, which is not part of the repository. *)
Module Places.

Record Suggestion : Type := BuildSuggestion {
  place_id : string;
  description : string
}.

Record Suggestions : Type := BuildSuggestions {
  status : string;
  data : list Suggestion
}.

(** Modelled from the spec: the state of the hook is the SearchSession of
    section 3, [{ queryText, suggestions, ready }], with [value] for
    queryText and [suggestions = { status, data }] as [Search] destructures
    them (App.js 182-188). *)
Record t : Type := Build {
  ready : bool;
  value : string;
  suggestions : Suggestions
}.

Definition no_suggestions : Suggestions := {| status := ""; data := [] |}.

Definition init : t :=
  {| ready := false; value := ""; suggestions := no_suggestions |}.

End Places.

(** What the program prints with [console.log]. *)
Inductive LogEntry : Type :=
| LogPosition (p : GeolocationPosition.t)          (* App.js 170 *)
| LogLatLng (lat lng : float)                      (* App.js 208 *)
| LogString (s : string).                          (* App.js 211 *)

(** The requests the handlers send to the collaborators of section 6. *)
Inductive Request : Type :=
| ReqCurrentPosition                               (* App.js 163 *)
| ReqGeocode (address : string)                    (* App.js 205 *)
| ReqSuggestions (query : string).                 (* setValue(_, true) *)

(** JavaScript exceptions and promise rejections. *)
Inductive JsError : Type :=
| TypeError (msg : string)
| Rejected (reason : string).

(** ** The world the closures of [App], [Locate] and [Search] see *)
Record World : Type := BuildWorld {
  markers : list Marker.t;          (* useState([])       App.js 57 *)
  selected : option Marker.t;       (* useState(null)     App.js 59 *)
  mapRef : option GoogleMap.t;      (* useRef().current   App.js 77 *)
  places : Places.t;                (* usePlacesAutocomplete, App.js 182-193 *)
  clock : Date;                     (* what [new Date()] reads *)
  console : list LogEntry;
  requests : list Request
}.

Definition initial_world (now : Date) : World :=
  {| markers := []; selected := None; mapRef := None; places := Places.init;
     clock := now; console := []; requests := [] |}.

Definition set_markers (f : list Marker.t -> list Marker.t) (w : World) : World :=
  {| markers := f (markers w); selected := selected w; mapRef := mapRef w;
     places := places w; clock := clock w; console := console w;
     requests := requests w |}.

Definition set_selected (s : option Marker.t) (w : World) : World :=
  {| markers := markers w; selected := s; mapRef := mapRef w;
     places := places w; clock := clock w; console := console w;
     requests := requests w |}.

Definition set_mapRef (m : option GoogleMap.t) (w : World) : World :=
  {| markers := markers w; selected := selected w; mapRef := m;
     places := places w; clock := clock w; console := console w;
     requests := requests w |}.

Definition set_places (f : Places.t -> Places.t) (w : World) : World :=
  {| markers := markers w; selected := selected w; mapRef := mapRef w;
     places := f (places w); clock := clock w; console := console w;
     requests := requests w |}.

Definition set_clock (t : Date) (w : World) : World :=
  {| markers := markers w; selected := selected w; mapRef := mapRef w;
     places := places w; clock := t; console := console w;
     requests := requests w |}.

Definition add_console (e : LogEntry) (w : World) : World :=
  {| markers := markers w; selected := selected w; mapRef := mapRef w;
     places := places w; clock := clock w; console := console w ++ [e];
     requests := requests w |}.

Definition add_request (r : Request) (w : World) : World :=
  {| markers := markers w; selected := selected w; mapRef := mapRef w;
     places := places w; clock := clock w; console := console w;
     requests := requests w ++ [r] |}.

(* ================================================================== *)
(** * The monad of handlers: state and exceptions *)

Inductive Completion (A : Type) : Type :=
| Normal (a : A)
| Throw (e : JsError).
Arguments Normal {A} a.
Arguments Throw {A} e.

Definition JS (A : Type) : Type := World -> Completion A * World.

Definition ret {A} (a : A) : JS A := fun w => (Normal a, w).

Definition bind {A B} (m : JS A) (k : A -> JS B) : JS B :=
  fun w =>
    match m w with
    | (Normal a, w') => k a w'
    | (Throw e, w') => (Throw e, w')
    end.

Definition throw {A} (e : JsError) : JS A := fun w => (Throw e, w).

(** [try { body } catch (error) { handler }]: what [body] did to the world
    before it threw is kept. *)
Definition try_catch {A} (body : JS A) (handler : JsError -> JS A) : JS A :=
  fun w =>
    match body w with
    | (Normal a, w') => (Normal a, w')
    | (Throw e, w') => handler e w'
    end.

(** [await p] on a promise that has settled with [c]. *)
Definition await {A} (c : Completion A) : JS A := fun w => (c, w).

Definition modify (f : World -> World) : JS unit := fun w => (Normal tt, f w).

Declare Scope js_scope.
Delimit Scope js_scope with js.
Notation "x <- m ;; k" := (bind m (fun x => k))
  (at level 61, m at next level, right associativity) : js_scope.
Notation "m ;; k" := (bind m (fun _ => k))
  (at level 61, right associativity) : js_scope.
Local Open Scope js_scope.

Definition exec {A} (m : JS A) (w : World) : World := snd (m w).
Definition completion {A} (m : JS A) (w : World) : Completion A := fst (m w).

(* ================================================================== *)
(** * [App]: the marker store *)

(** [new Date()] reads the clock. *)
Definition new_Date : JS Date := fun w => (Normal (clock w), w).

(** [setMarkers(updater)]: React runs the updater on the current array and
    stores what it returns. *)
Definition setMarkers (updater : list Marker.t -> JS (list Marker.t)) : JS unit :=
  fun w =>
    match updater (markers w) w with
    | (Normal next, w') => (Normal tt, set_markers (fun _ => next) w')
    | (Throw e, w') => (Throw e, w')
    end.

(** [setSelected(value)] *)
Definition setSelected (s : option Marker.t) : JS unit :=
  modify (set_selected s).

Definition console_log (e : LogEntry) : JS unit := modify (add_console e).

Definition send (r : Request) : JS unit := modify (add_request r).

(** App.js 63-74: the marker is built, and the clock read, inside the
    updater. *)
Definition onMapClick (e : MapMouseEvent.t) : JS unit :=
  setMarkers (fun current =>
    time <- new_Date ;;
    ret (current ++ [ {| Marker.lat := LatLngLiteral.lat (MapMouseEvent.latLng e);
                         Marker.lng := LatLngLiteral.lng (MapMouseEvent.latLng e);
                         Marker.time := time |} ])).

(** App.js 129-131: the [onClick] of the [<Marker>] drawn for [marker]. *)
Definition Marker_onClick (marker : Marker.t) : JS unit :=
  setSelected (Some marker).

(** App.js 138-141 *)
Definition InfoWindow_onCloseClick : JS unit :=
  setSelected None.

(** App.js 119: the React key of the [<Marker>] drawn for [marker]. *)
Definition Marker_key (marker : Marker.t) : string :=
  toISOString (Marker.time marker).

(** The accessors of section 4.1. *)
Definition addMarker (c : LatLngLiteral.t) : JS unit :=
  onMapClick {| MapMouseEvent.latLng := c |}.
Definition selectMarker (m : Marker.t) : JS unit := Marker_onClick m.
Definition clearSelection : JS unit := InfoWindow_onCloseClick.

(** A map click together with the reading of the clock at the time its
    updater runs; [Date] is wall-clock time, so any reading can follow any
    other. *)
Record Click : Type := BuildClick { click_at : LatLngLiteral.t; click_time : Date }.

Definition do_click (w : World) (c : Click) : World :=
  exec (addMarker (click_at c)) (set_clock (click_time c) w).

Definition do_clicks (cs : list Click) (w : World) : World :=
  fold_left do_click cs w.

Definition marker_of_click (c : Click) : Marker.t :=
  {| Marker.lat := LatLngLiteral.lat (click_at c);
     Marker.lng := LatLngLiteral.lng (click_at c);
     Marker.time := click_time c |}.

(* ================================================================== *)
(** * [App]: the camera *)

(** App.js 80-82 *)
Definition onMapLoad (map : GoogleMap.t) : JS unit :=
  modify (set_mapRef (Some map)).

(** [mapRef.current.method(...)].  While [mapRef.current] is [undefined]
    the property access throws a TypeError and nothing is done; otherwise the
    method runs on the instance the ref points at. *)
Definition mapRef_current (method : GoogleMap.t -> GoogleMap.t) : JS unit :=
  fun w =>
    match mapRef w with
    | None => throw (TypeError "Cannot read properties of undefined") w
    | Some map => modify (set_mapRef (Some (method map))) w
    end.

(** App.js 85-90 *)
Definition panTo (arg : LatLngLiteral.t) : JS unit :=
  let lat := LatLngLiteral.lat arg in
  let lng := LatLngLiteral.lng arg in
  mapRef_current (GoogleMap.panTo {| LatLngLiteral.lat := lat; LatLngLiteral.lng := lng |}) ;;
  mapRef_current (GoogleMap.setZoom 14).

(** The part of a map instance the specification calls its final state. *)
Definition view_state (m : GoogleMap.t) : LatLngLiteral.t * Z :=
  (GoogleMap.center m, GoogleMap.zoom m).

(* ================================================================== *)
(** * [Locate] *)

(** How the device answers one [getCurrentPosition] request. *)
Inductive SensorReply : Type :=
| PositionFound (position : GeolocationPosition.t)
| PositionError (reason : string).

(** [navigator.geolocation.getCurrentPosition(success, error)]: one request,
    answered by exactly one of the two callbacks. *)
Definition getCurrentPosition (reply : SensorReply)
    (success : GeolocationPosition.t -> JS unit) (error : JS unit) : JS unit :=
  send ReqCurrentPosition ;;
  match reply with
  | PositionFound position => success position
  | PositionError _ => error
  end.

(** App.js 161-174; [panTo] is the prop of [Locate]. *)
Definition Locate_onClick (panTo : LatLngLiteral.t -> JS unit)
    (reply : SensorReply) : JS unit :=
  getCurrentPosition reply
    (fun position =>
       panTo {| LatLngLiteral.lat :=
                  GeolocationPosition.latitude (GeolocationPosition.coords position);
                LatLngLiteral.lng :=
                  GeolocationPosition.longitude (GeolocationPosition.coords position) |} ;;
       console_log (LogPosition position))
    (ret tt).

(** [<Locate panTo={panTo} />], App.js 105. *)
Definition locateCurrentPosition : SensorReply -> JS unit := Locate_onClick panTo.

(* ================================================================== *)
(** * [Search] *)

(** Modelled from the spec: [setValue] is returned by the
    [usePlacesAutocomplete] hook.  Section 4.3: a text change "updates
    queryText and triggers an asynchronous suggestion fetch"; with [false]
    as second argument the text is set "without re-triggering a suggestion
    fetch". *)
Definition setValue (val : string) (shouldFetchData : bool) : JS unit :=
  modify (set_places (fun p =>
    {| Places.ready := Places.ready p; Places.value := val;
       Places.suggestions := Places.suggestions p |})) ;;
  if shouldFetchData then send (ReqSuggestions val) else ret tt.

(** Modelled from the spec: [clearSuggestions], returned by the same hook,
    "clears suggestions" (section 4.3). *)
Definition clearSuggestions : JS unit :=
  modify (set_places (fun p =>
    {| Places.ready := Places.ready p; Places.value := Places.value p;
       Places.suggestions := Places.no_suggestions |})).

(** App.js 217-219: [setValue(e.target.value)], the flag defaults to true. *)
Definition ComboboxInput_onChange (target_value : string) : JS unit :=
  setValue target_value true.

Section Search.

(** The geocoding service is outside the program: the element type of its
    result list and the way its two promises settle are parameters. *)
Variable GeocoderResult : Type.
Variable geocode_settles : string -> Completion (list GeocoderResult).
Variable latLng_settles : option GeocoderResult -> Completion LatLngLiteral.t.

Definition getGeocode (address : string) : JS (list GeocoderResult) :=
  send (ReqGeocode address) ;;
  await (geocode_settles address).

(** The argument is [results[0]], which is [undefined] on an empty array. *)
Definition getLatLng (result : option GeocoderResult) : JS LatLngLiteral.t :=
  await (latLng_settles result).

(** App.js 199-213; [panTo] is the prop of [Search]. *)
Definition Combobox_onSelect (panTo : LatLngLiteral.t -> JS unit)
    (address : string) : JS unit :=
  setValue address false ;;
  clearSuggestions ;;
  try_catch
    (results <- getGeocode address ;;
     ll <- getLatLng (nth_error results 0) ;;
     let lat := LatLngLiteral.lat ll in
     let lng := LatLngLiteral.lng ll in
     console_log (LogLatLng lat lng) ;;
     panTo {| LatLngLiteral.lat := lat; LatLngLiteral.lng := lng |})
    (fun error => console_log (LogString "Error!")).

(** [<Search panTo={panTo} />], App.js 104. *)
Definition selectSuggestion : string -> JS unit := Combobox_onSelect panTo.

End Search.

Arguments getGeocode {GeocoderResult} geocode_settles address.
Arguments getLatLng {GeocoderResult} latLng_settles result.
Arguments Combobox_onSelect {GeocoderResult} geocode_settles latLng_settles panTo address.
Arguments selectSuggestion {GeocoderResult} geocode_settles latLng_settles address.

(* ================================================================== *)
(** * Observations and sample inputs *)

(** The calls made so far on the instance behind [mapRef.current]. *)
Definition calls_on (r : option GoogleMap.t) : list GoogleMap.Call :=
  match r with
  | Some map => GoogleMap.calls map
  | None => []
  end.

(** The state of the hook once the suggestion [address] has been picked. *)
Definition picked (address : string) (p : Places.t) : Places.t :=
  {| Places.ready := Places.ready p; Places.value := address;
     Places.suggestions := Places.no_suggestions |}.

(** A geocoding service to run the handlers on: its results are bare
    coordinates, it knows one address with two candidates and one address
    with none, and it rejects every other address.  [getLatLng] reads the
    coordinate of its argument and fails on [undefined]. *)
Definition demo_geocode (address : string) : Completion (list LatLngLiteral.t) :=
  if String.eqb address "San Francisco, CA, USA" then
    Normal [center; {| LatLngLiteral.lat := 40.0; LatLngLiteral.lng := (-75.0) |}]
  else if String.eqb address "Atlantis" then Normal []
  else Throw (Rejected "ZERO_RESULTS").

Definition demo_latLng (result : option LatLngLiteral.t) : Completion LatLngLiteral.t :=
  match result with
  | Some c => Normal c
  | None => Throw (TypeError "Cannot read properties of undefined")
  end.

(** The same service when it is down. *)
Definition demo_geocode_down (address : string) : Completion (list LatLngLiteral.t) :=
  Throw (Rejected "UNKNOWN_ERROR").

(** The search box after the user has typed "san" and the service has
    answered with one suggestion. *)
Definition typed_san : World :=
  set_places (fun p =>
    {| Places.ready := true; Places.value := Places.value p;
       Places.suggestions :=
         {| Places.status := "OK";
            Places.data := [ {| Places.place_id := "ChIJIQBpAG2ahYAR_6128GcTUEo";
                                Places.description := "San Francisco, CA, USA" |} ] |} |})
    (exec (ComboboxInput_onChange "san") (initial_world 0)).

(** The two clicks of the scenario of section 8, one millisecond apart, and
    the same two clicks handled within one millisecond. *)
Definition sighting_1 : LatLngLiteral.t :=
  {| LatLngLiteral.lat := 37.77; LatLngLiteral.lng := (-122.41) |}.

Definition sighting_2 : LatLngLiteral.t :=
  {| LatLngLiteral.lat := 37.78; LatLngLiteral.lng := (-122.42) |}.

Definition two_clicks : list Click :=
  [ {| click_at := sighting_1; click_time := 1700000000000 |};
    {| click_at := sighting_2; click_time := 1700000000001 |} ].

Definition two_clicks_one_instant : list Click :=
  [ {| click_at := sighting_1; click_time := 1700000000000 |};
    {| click_at := sighting_2; click_time := 1700000000000 |} ].

(* ================================================================== *)
(** * Rendering *)

(** The React elements the three components return, with the props the
    source gives them.  Styling props ([mapContainerStyle], the [styles] of
    [./mapStyles], [className] of the wrappers) carry no behaviour and are
    left out. *)
Module Icon.
Record t : Type := Build {
  url : string;
  scaledSize : Z * Z;               (* new google.maps.Size(w, h) *)
  origin : Z * Z;                   (* new google.maps.Point(x, y) *)
  anchor : Z * Z
}.
End Icon.

(** [<Marker key position icon onClick />], App.js 118-132. *)
Module MarkerElement.
Record t : Type := Build {
  key : string;
  position : LatLngLiteral.t;
  icon : Icon.t;
  onClick : JS unit
}.
End MarkerElement.

(** The children of the paragraph of the info window: text, and the call
    [formatRelative(date, baseDate)] of the package date-fns, kept as a call
    since the formatter is not part of the repository. *)
Inductive Text : Type :=
| Literal (s : string)
| FormatRelative (date baseDate : Date).

(** [<InfoWindow position onCloseClick>], App.js 136-150. *)
Module InfoWindowElement.
Record t : Type := Build {
  position : LatLngLiteral.t;
  onCloseClick : JS unit;
  h2 : string;
  p : list Text
}.
End InfoWindowElement.

(** [<GoogleMap zoom center options onClick onLoad>] and its children,
    App.js 107-152. *)
Module GoogleMapElement.
Record t : Type := Build {
  zoom : Z;
  center : LatLngLiteral.t;
  disableDefaultUI : bool;
  zoomControl : bool;
  onClick : MapMouseEvent.t -> JS unit;
  onLoad : GoogleMap.t -> JS unit;
  markers : list MarkerElement.t;
  infoWindow : option InfoWindowElement.t
}.
End GoogleMapElement.

(** [<button className="locate" onClick>], App.js 159-177.  The handler is
    given the answer of the sensor to the request it sends. *)
Module LocateElement.
Record t : Type := Build {
  onClick : SensorReply -> JS unit;
  img_src : string;
  img_alt : string
}.
End LocateElement.

(** [<ComboboxOption key value />], App.js 228-231. *)
Module ComboboxOption.
Record t : Type := Build { key : string; value : string }.
End ComboboxOption.

(** [<Combobox onSelect>] with its input and its list, App.js 198-235.  The
    handler is given the way the two promises of the geocoder settle. *)
Module SearchElement.
Record t : Type := Build {
  onSelect : forall GeocoderResult : Type,
             (string -> Completion (list GeocoderResult)) ->
             (option GeocoderResult -> Completion LatLngLiteral.t) ->
             string -> JS unit;
  value : string;
  onChange : string -> JS unit;
  disabled : bool;
  placeholder : string;
  options : list ComboboxOption.t
}.
End SearchElement.

(** What [App] returns: one of the two headings, or the page. *)
Inductive AppElement : Type :=
| h1 (text : string)
| div (heading : string) (search : SearchElement.t) (locate : LocateElement.t)
      (map : GoogleMapElement.t).

(** A render: what it printed with [console.log(markers)] and what it
    returned. *)
Record Rendered : Type := BuildRendered {
  logged : list (list Marker.t);
  tree : AppElement
}.

(** [if (markers)]: an array is an object, and every object is truthy, the
    empty array too. *)
Definition array_truthy {A} (a : list A) : bool := true.

(** App.js 157-179 *)
Definition Locate_render (panTo : LatLngLiteral.t -> JS unit) : LocateElement.t :=
  {| LocateElement.onClick := Locate_onClick panTo;
     LocateElement.img_src := "./compass.svg";
     LocateElement.img_alt := "Compass" |}.

(** App.js 181-238: [value], [ready] and [suggestions: { status, data }] are
    read from the hook; the list is [status === "OK" && data.map(...)], and
    [false] renders nothing. *)
Definition Search_render (panTo : LatLngLiteral.t -> JS unit) (hook : Places.t)
    : SearchElement.t :=
  let status := Places.status (Places.suggestions hook) in
  let data := Places.data (Places.suggestions hook) in
  {| SearchElement.onSelect := fun GeocoderResult geocode_settles latLng_settles =>
       Combobox_onSelect geocode_settles latLng_settles panTo;
     SearchElement.value := Places.value hook;
     SearchElement.onChange := ComboboxInput_onChange;
     SearchElement.disabled := negb (Places.ready hook);
     SearchElement.placeholder := "Enter an Address";
     SearchElement.options :=
       if String.eqb status "OK" then
         map (fun s => {| ComboboxOption.key := Places.place_id s;
                          ComboboxOption.value := Places.description s |}) data
       else [] |}.

(** App.js 107-152: the map element [App] returns once the script is
    loaded.  The info window reads the clock for [new Date()]. *)
Definition App_map (w : World) : GoogleMapElement.t :=
  {| GoogleMapElement.zoom := 8;
     GoogleMapElement.center := center;
     GoogleMapElement.disableDefaultUI := true;
     GoogleMapElement.zoomControl := true;
     GoogleMapElement.onClick := onMapClick;
     GoogleMapElement.onLoad := onMapLoad;
     GoogleMapElement.markers :=
       map (fun marker =>
              {| MarkerElement.key := Marker_key marker;
                 MarkerElement.position :=
                   {| LatLngLiteral.lat := Marker.lat marker;
                      LatLngLiteral.lng := Marker.lng marker |};
                 MarkerElement.icon :=
                   {| Icon.url := "/bear.svg";
                      Icon.scaledSize := (30, 30);
                      Icon.origin := (0, 0);
                      Icon.anchor := (15, 15) |};
                 MarkerElement.onClick := Marker_onClick marker |})
           (markers w);
     GoogleMapElement.infoWindow :=
       match selected w with
       | Some selected =>
           Some {| InfoWindowElement.position :=
                     {| LatLngLiteral.lat := Marker.lat selected;
                        LatLngLiteral.lng := Marker.lng selected |};
                   InfoWindowElement.onCloseClick := InfoWindow_onCloseClick;
                   InfoWindowElement.h2 := "Bear Spotted!";
                   InfoWindowElement.p :=
                     [Literal "Spotted"; Literal " ";
                      FormatRelative (Marker.time selected) (clock w)] |}
       | None => None
       end |}.

(** App.js 50-155: the body of [App] after its hooks.  [loadError] and
    [isLoaded] are what [useLoadScript] returned for this render. *)
Definition App_render (loadError : option string) (isLoaded : bool) (w : World)
    : Rendered :=
  match loadError with
  | Some _ => {| logged := []; tree := h1 "Error Loading Maps" |}
  | None =>
      if negb isLoaded then {| logged := []; tree := h1 "Loading Maps" |}
      else
        {| logged := if array_truthy (markers w) then [markers w] else [];
           tree := div "Bears" (Search_render panTo (places w))
                     (Locate_render panTo) (App_map w) |}
  end.


(* ================================================================== *)
(** * Events *)

(** A call history made of [panTo(c)], [setZoom(14)] pairs only. *)
Fixpoint pan_zoom_pairs (calls : list GoogleMap.Call) : bool :=
  match calls with
  | [] => true
  | GoogleMap.CallPanTo _ :: GoogleMap.CallSetZoom z :: rest =>
      (z =? 14) && pan_zoom_pairs rest
  | _ => false
  end.

Section Events.

Variable GeocoderResult : Type.

(** What can happen to the loaded page.  A click on a marker or on a
    suggestion names the element by its rank in the rendered list; the
    answers of the sensor and of the geocoder come with the event that asks
    for them.  The clock moves on its own, and the hook sets [ready] and
    [suggestions] on its own (script ready, suggestions fetched). *)
Inductive Event : Type :=
| Tick (t : Date)
| HookUpdate (ready : bool) (suggestions : Places.Suggestions)
| MapLoad (map : GoogleMap.t)
| MapClick (e : MapMouseEvent.t)
| MarkerClick (i : nat)
| InfoWindowClose
| LocateClick (reply : SensorReply)
| InputChange (text : string)
| OptionSelect (i : nat) (geocode_reply : Completion (list GeocoderResult))
               (latLng_reply : option GeocoderResult -> Completion LatLngLiteral.t).

(** One event on the page rendered from [w]: the handler the element
    carries is run.  An element that is not rendered cannot be clicked, and
    a disabled input takes no text. *)
Definition dispatch (ev : Event) (w : World) : World :=
  let search := Search_render panTo (places w) in
  let page_map := App_map w in
  match ev with
  | Tick t => set_clock t w
  | HookUpdate ready suggestions =>
      set_places (fun hook =>
        {| Places.ready := ready; Places.value := Places.value hook;
           Places.suggestions := suggestions |}) w
  | MapLoad m => exec (GoogleMapElement.onLoad page_map m) w
  | MapClick e => exec (GoogleMapElement.onClick page_map e) w
  | MarkerClick i =>
      match nth_error (GoogleMapElement.markers page_map) i with
      | Some marker => exec (MarkerElement.onClick marker) w
      | None => w
      end
  | InfoWindowClose =>
      match GoogleMapElement.infoWindow page_map with
      | Some info => exec (InfoWindowElement.onCloseClick info) w
      | None => w
      end
  | LocateClick reply => exec (LocateElement.onClick (Locate_render panTo) reply) w
  | InputChange text =>
      if SearchElement.disabled search then w
      else exec (SearchElement.onChange search text) w
  | OptionSelect i geocode_reply latLng_reply =>
      match nth_error (SearchElement.options search) i with
      | Some picked_option =>
          exec (SearchElement.onSelect search GeocoderResult
                  (fun _ => geocode_reply) latLng_reply
                  (ComboboxOption.value picked_option)) w
      | None => w
      end
  end.

Definition run (evs : list Event) (w : World) : World :=
  fold_left (fun w ev => dispatch ev w) evs w.

(** The map clicks among the events, each with the reading of the clock at
    the time it is handled; [now] is the reading before the first event. *)
Fixpoint clicks_of (evs : list Event) (now : Date) : list Click :=
  match evs with
  | [] => []
  | Tick t :: rest => clicks_of rest t
  | MapClick e :: rest =>
      {| click_at := MapMouseEvent.latLng e; click_time := now |} :: clicks_of rest now
  | _ :: rest => clicks_of rest now
  end.

Definition is_LocateClick (ev : Event) : bool :=
  match ev with
  | LocateClick _ => true
  | _ => false
  end.

Definition is_OptionSelect (ev : Event) : bool :=
  match ev with
  | OptionSelect _ _ _ => true
  | _ => false
  end.

(** The map the event attaches, if it attaches one, has a history of
    [panTo], [setZoom(14)] pairs (a fresh map has an empty one). *)
Definition loads_paired (ev : Event) : Prop :=
  match ev with
  | MapLoad m => pan_zoom_pairs (GoogleMap.calls m) = true
  | _ => True
  end.

End Events.

Arguments Tick {GeocoderResult} t.
Arguments HookUpdate {GeocoderResult} ready suggestions.
Arguments MapLoad {GeocoderResult} map.
Arguments MapClick {GeocoderResult} e.
Arguments MarkerClick {GeocoderResult} i.
Arguments InfoWindowClose {GeocoderResult}.
Arguments LocateClick {GeocoderResult} reply.
Arguments InputChange {GeocoderResult} text.
Arguments OptionSelect {GeocoderResult} i geocode_reply latLng_reply.
Arguments dispatch {GeocoderResult} ev w.
Arguments run {GeocoderResult} evs w.
Arguments clicks_of {GeocoderResult} evs now.
Arguments is_LocateClick {GeocoderResult} ev.
Arguments is_OptionSelect {GeocoderResult} ev.
Arguments loads_paired {GeocoderResult} ev.

(** The selection is [null] or one of the markers of the list. *)
Definition selection_in_list (w : World) : Prop :=
  match selected w with
  | Some m => In m (markers w)
  | None => True
  end.

(** The info window, when there is one, sits on one of the rendered
    markers. *)
Definition info_window_on_marker (w : World) : Prop :=
  match GoogleMapElement.infoWindow (App_map w) with
  | Some info =>
      In (InfoWindowElement.position info)
         (map MarkerElement.position (GoogleMapElement.markers (App_map w)))
  | None => True
  end.

(** [mapRef.current] holds a map. *)
Definition attached (w : World) : bool :=
  match mapRef w with
  | Some _ => true
  | None => false
  end.

Definition is_ReqCurrentPosition (r : Request) : bool :=
  match r with
  | ReqCurrentPosition => true
  | _ => false
  end.

Definition is_ReqGeocode (r : Request) : bool :=
  match r with
  | ReqGeocode _ => true
  | _ => false
  end.

(** A session to run the page on: the map loads, the user clicks twice on
    the map, opens the first marker, asks for the current position, types
    and picks the suggestion the hook has fetched. *)
Definition demo_session : list (Event LatLngLiteral.t) :=
  [ MapLoad initial_map;
    Tick 1700000000000;
    MapClick {| MapMouseEvent.latLng := sighting_1 |};
    Tick 1700000000001;
    MapClick {| MapMouseEvent.latLng := sighting_2 |};
    MarkerClick 0;
    LocateClick (PositionFound
      {| GeolocationPosition.coords :=
           {| GeolocationPosition.latitude := 40.0;
              GeolocationPosition.longitude := (-75.0) |};
         GeolocationPosition.timestamp := 1700000000002 |});
    HookUpdate true Places.no_suggestions;
    InputChange "san";
    HookUpdate true
      {| Places.status := "OK";
         Places.data := [ {| Places.place_id := "ChIJIQBpAG2ahYAR_6128GcTUEo";
                             Places.description := "San Francisco, CA, USA" |} ] |};
    OptionSelect 0 (demo_geocode "San Francisco, CA, USA") demo_latLng ].

(** Linear arithmetic with quotients and remainders by constants. *)
Ltac divlia := Z.to_euclidean_division_equations; lia.

(* ================================================================== *)
(** * The ISO rendering of a time value is injective *)

Example toISOString_epoch : toISOString 0 = "1970-01-01T00:00:00.000Z".
Proof. reflexivity. Qed.

Example toISOString_before_epoch : toISOString (-1) = "1969-12-31T23:59:59.999Z".
Proof. reflexivity. Qed.

Example toISOString_leap_day : toISOString 1709164800000 = "2024-02-29T00:00:00.000Z".
Proof. reflexivity. Qed.

Example toISOString_year_0 : toISOString (-62167219200000) = "0000-01-01T00:00:00.000Z".
Proof. reflexivity. Qed.

Example toISOString_last : toISOString 8640000000000000 = "+275760-09-13T00:00:00.000Z".
Proof. reflexivity. Qed.

Example toISOString_first : toISOString (-8640000000000000) = "-271821-04-20T00:00:00.000Z".
Proof. reflexivity. Qed.

Lemma doe_yoe_range (doe : Z) :
  0 <= doe < 146097 -> 0 <= doe_yoe doe <= 399.
Proof. unfold doe_yoe. intros. divlia. Qed.

Lemma doe_doy_range (doe : Z) :
  0 <= doe < 146097 -> 0 <= doe_doy doe <= 365.
Proof. unfold doe_doy, doe_yoe. cbv zeta. intros. divlia. Qed.

Lemma doy_mp_range (doy : Z) :
  0 <= doy <= 365 -> 0 <= doy_mp doy <= 11.
Proof. unfold doy_mp. intros. divlia. Qed.

Lemma doy_day_range (doy : Z) :
  0 <= doy <= 365 -> 1 <= doy_day doy <= 31.
Proof. unfold doy_day, doy_mp. intros. divlia. Qed.

(** Months run from March (0) to February (11) inside the computation. *)
Lemma mp_month_range (mp : Z) :
  0 <= mp <= 11 ->
  1 <= mp_month mp <= 12
  /\ (if 2 <? mp_month mp then mp_month mp - 3 else mp_month mp + 9) = mp.
Proof.
  intro H. unfold mp_month.
  destruct (mp <? 10) eqn:E; [apply Z.ltb_lt in E | apply Z.ltb_ge in E].
  - destruct (2 <? mp + 3) eqn:E'; [|apply Z.ltb_ge in E']; lia.
  - destruct (2 <? mp - 9) eqn:E'; [apply Z.ltb_lt in E'|]; lia.
Qed.

Lemma days_from_civil_from_days (day : Z) :
  days_from_civil (civil_from_days day) = day.
Proof.
  unfold civil_from_days, days_from_civil. cbv zeta.
  pose proof (Z.mod_pos_bound (day + 719468) 146097 ltac:(lia)) as Hdoe.
  pose proof (doe_yoe_range _ Hdoe) as Hyoe.
  pose proof (doe_doy_range _ Hdoe) as Hdoy.
  pose proof (mp_month_range _ (doy_mp_range _ Hdoy)) as [_ Hmp].
  set (doe := (day + 719468) mod 146097) in *.
  set (era := (day + 719468) / 146097).
  set (yoe := doe_yoe doe) in *.
  set (m := mp_month (doy_mp (doe_doy doe))) in *.
  replace (yoe + era * 400 + (if m <=? 2 then 1 else 0) - (if m <=? 2 then 1 else 0))
    with (yoe + era * 400) by lia.
  assert (Hq : (yoe + era * 400) / 400 = era).
  { symmetry. apply Z.div_unique with (r := yoe); lia. }
  assert (Hr : (yoe + era * 400) mod 400 = yoe).
  { symmetry. apply Z.mod_unique with (q := era); lia. }
  rewrite Hq, Hr, Hmp.
  pose proof (Z.div_mod (day + 719468) 146097 ltac:(lia)) as Hz.
  fold doe era in Hz.
  assert (Hd : doy_day (doe_doy doe) =
               doe_doy doe - (153 * doy_mp (doe_doy doe) + 2) / 5 + 1)
    by reflexivity.
  assert (Hy : doe_doy doe = doe - (365 * yoe + yoe / 4 - yoe / 100))
    by reflexivity.
  lia.
Qed.

Lemma civil_range (day y m d : Z) :
  civil_from_days day = (y, m, d) ->
  1 <= m <= 12 /\ 1 <= d <= 31 /\
  (day + 719468) / 146097 * 400 <= y <= (day + 719468) / 146097 * 400 + 400.
Proof.
  unfold civil_from_days. cbv zeta. intro E.
  pose proof (Z.mod_pos_bound (day + 719468) 146097 ltac:(lia)) as Hdoe.
  pose proof (doe_yoe_range _ Hdoe) as Hyoe.
  pose proof (doe_doy_range _ Hdoe) as Hdoy.
  pose proof (mp_month_range _ (doy_mp_range _ Hdoy)) as [Hm _].
  pose proof (doy_day_range _ Hdoy) as Hd.
  injection E as Ey Em Ed. subst m d.
  repeat split; try lia.
  - destruct (_ <=? 2); lia.
  - destruct (_ <=? 2); lia.
Qed.

Lemma digit_inj (a b : Z) :
  0 <= a <= 9 -> 0 <= b <= 9 -> digit a = digit b -> a = b.
Proof.
  intros Ha Hb H. apply (f_equal nat_of_ascii) in H. unfold digit in H.
  rewrite !nat_ascii_embedding in H by lia. lia.
Qed.

Lemma digit_not_sign (a : Z) :
  0 <= a <= 9 -> digit a <> "+"%char /\ digit a <> "-"%char.
Proof.
  intros Ha. split; intro H; apply (f_equal nat_of_ascii) in H; unfold digit in H;
    rewrite nat_ascii_embedding in H by lia.
  - change (nat_of_ascii "+") with 43%nat in H. lia.
  - change (nat_of_ascii "-") with 45%nat in H. lia.
Qed.

Lemma String_inj (c1 c2 : ascii) (r1 r2 : string) :
  String c1 r1 = String c2 r2 -> c1 = c2 /\ r1 = r2.
Proof. intro H. now injection H. Qed.

Lemma pad2_inj (a b : Z) (s1 s2 : string) :
  0 <= a < 100 -> 0 <= b < 100 ->
  (pad2 a ++ s1 = pad2 b ++ s2)%string -> a = b /\ s1 = s2.
Proof.
  intros Ha Hb H. unfold pad2 in H. simpl in H. injection H as H1 H2 H3.
  apply digit_inj in H1; [|divlia..]. apply digit_inj in H2; [|divlia..].
  split; [divlia | assumption].
Qed.

Lemma pad3_inj (a b : Z) (s1 s2 : string) :
  0 <= a < 1000 -> 0 <= b < 1000 ->
  (pad3 a ++ s1 = pad3 b ++ s2)%string -> a = b /\ s1 = s2.
Proof.
  intros Ha Hb H. unfold pad3 in H. cbn [append] in H.
  apply String_inj in H as [H1 H2].
  apply digit_inj in H1; [|divlia..]. apply pad2_inj in H2 as [H2 H3]; [|divlia..].
  split; [divlia | assumption].
Qed.

Lemma pad4_inj (a b : Z) (s1 s2 : string) :
  0 <= a < 10000 -> 0 <= b < 10000 ->
  (pad4 a ++ s1 = pad4 b ++ s2)%string -> a = b /\ s1 = s2.
Proof.
  intros Ha Hb H. unfold pad4 in H. cbn [append] in H.
  apply String_inj in H as [H1 H2].
  apply digit_inj in H1; [|divlia..]. apply pad3_inj in H2 as [H2 H3]; [|divlia..].
  split; [divlia | assumption].
Qed.

Lemma pad6_inj (a b : Z) (s1 s2 : string) :
  0 <= a < 1000000 -> 0 <= b < 1000000 ->
  (pad6 a ++ s1 = pad6 b ++ s2)%string -> a = b /\ s1 = s2.
Proof.
  intros Ha Hb H. unfold pad6 in H.
  assert (E : forall x y s, ((pad2 x ++ pad4 y) ++ s = pad2 x ++ (pad4 y ++ s))%string)
    by reflexivity.
  rewrite !E in H.
  apply pad2_inj in H as [H1 H2]; [|divlia..].
  apply pad4_inj in H2 as [H2 H3]; [|divlia..].
  split; [divlia | assumption].
Qed.

(** A four-digit year starts with a digit, an expanded year with a sign. *)
Lemma pad4_head (a : Z) (s : string) :
  0 <= a < 10000 ->
  exists c r, (pad4 a ++ s)%string = String c r /\ c <> "+"%char /\ c <> "-"%char.
Proof.
  intro Ha. exists (digit (a / 1000)), (pad3 (a mod 1000) ++ s)%string.
  split; [reflexivity|]. apply digit_not_sign. divlia.
Qed.

Lemma year_string_inj (y1 y2 : Z) (s1 s2 : string) :
  -1000000 < y1 < 1000000 -> -1000000 < y2 < 1000000 ->
  (year_string y1 ++ s1 = year_string y2 ++ s2)%string -> y1 = y2 /\ s1 = s2.
Proof.
  intros B1 B2. unfold year_string.
  destruct ((0 <=? y1) && (y1 <=? 9999)) eqn:F1;
  destruct ((0 <=? y2) && (y2 <=? 9999)) eqn:F2;
  rewrite ?andb_true_iff, ?andb_false_iff, ?Z.leb_le, ?Z.leb_gt in F1, F2.
  - apply pad4_inj; lia.
  - intro H. destruct (pad4_head y1 s1) as (c & r & E & Hp & Hm); [lia|].
    rewrite E in H.
    destruct (y2 <? 0); cbn [append] in H; apply String_inj in H as [H _];
      congruence.
  - intro H. destruct (pad4_head y2 s2) as (c & r & E & Hp & Hm); [lia|].
    rewrite E in H.
    destruct (y1 <? 0); cbn [append] in H; apply String_inj in H as [H _];
      congruence.
  - destruct (y1 <? 0) eqn:N1; destruct (y2 <? 0) eqn:N2;
      rewrite ?Z.ltb_lt, ?Z.ltb_ge in N1, N2;
      cbn [append]; intro H; apply String_inj in H as [Hc H]; try discriminate.
    + apply pad6_inj in H as [H1 H2]; [|lia..]. split; [lia|assumption].
    + apply pad6_inj in H as [H1 H2]; [|lia..]. split; [lia|assumption].
Qed.

(** Two valid time values with the same ISO string are the same. *)
Lemma toISOString_inj (t1 t2 : Date) :
  valid_time t1 -> valid_time t2 ->
  toISOString t1 = toISOString t2 -> t1 = t2.
Proof.
  unfold valid_time, toISOString, Day, HourFromTime, MinFromTime, SecFromTime,
    msFromTime, msPerDay.
  intros V1 V2.
  destruct (civil_from_days (t1 / 86400000)) as [[y1 m1] d1] eqn:E1.
  destruct (civil_from_days (t2 / 86400000)) as [[y2 m2] d2] eqn:E2.
  destruct (civil_range _ _ _ _ E1) as (Rm1 & Rd1 & Ry1).
  destruct (civil_range _ _ _ _ E2) as (Rm2 & Rd2 & Ry2).
  intro H.
  apply year_string_inj in H as [Hy H]; [|divlia..].
  cbn [append] in H. apply String_inj in H as [_ H].
  apply pad2_inj in H as [Hm H]; [|lia..].
  cbn [append] in H. apply String_inj in H as [_ H].
  apply pad2_inj in H as [Hd H]; [|lia..].
  cbn [append] in H. apply String_inj in H as [_ H].
  apply pad2_inj in H as [Hh H]; [|divlia..].
  cbn [append] in H. apply String_inj in H as [_ H].
  apply pad2_inj in H as [Hmi H]; [|divlia..].
  cbn [append] in H. apply String_inj in H as [_ H].
  apply pad2_inj in H as [Hs H]; [|divlia..].
  cbn [append] in H. apply String_inj in H as [_ H].
  apply pad3_inj in H as [Hms _]; [|divlia..].
  assert (Hday : t1 / 86400000 = t2 / 86400000).
  { rewrite <- (days_from_civil_from_days (t1 / 86400000)).
    rewrite <- (days_from_civil_from_days (t2 / 86400000)).
    rewrite E1, E2. now subst. }
  clear E1 E2 Ry1 Ry2. divlia.
Qed.

(* ================================================================== *)
(** * The marker store *)

Lemma onMapClick_eq (e : MapMouseEvent.t) (w : World) :
  onMapClick e w =
  (Normal tt,
   set_markers (fun _ =>
     markers w ++ [ {| Marker.lat := LatLngLiteral.lat (MapMouseEvent.latLng e);
                       Marker.lng := LatLngLiteral.lng (MapMouseEvent.latLng e);
                       Marker.time := clock w |} ]) w).
Proof. reflexivity. Qed.

Lemma do_click_markers (w : World) (c : Click) :
  markers (do_click w c) = markers w ++ [marker_of_click c].
Proof. reflexivity. Qed.

Lemma do_clicks_markers (cs : list Click) :
  forall w, markers (do_clicks cs w) = markers w ++ map marker_of_click cs.
Proof.
  induction cs as [|c cs IH]; intro w; simpl.
  - now rewrite app_nil_r.
  - unfold do_clicks in IH. rewrite IH, do_click_markers, <- app_assoc.
    reflexivity.
Qed.

Lemma firstn_length_app {A} (l l' : list A) :
  firstn (length l) (l ++ l') = l.
Proof.
  rewrite firstn_app, Nat.sub_diag, firstn_all. simpl. apply app_nil_r.
Qed.

(** C1 (append-only marker list).  A map click always completes normally,
    makes [markers] exactly one element longer and leaves the elements that
    were there in place: the old list is the prefix of the new one, so every
    stored marker keeps its lat, lng and time.  Over a sequence of clicks,
    whatever the clock reads at each, the list grows by the number of clicks
    and still starts with the old list. *)
Theorem C1_markers_append_only :
  forall (w : World) (c : Click) (cs : list Click),
    completion (addMarker (click_at c)) (set_clock (click_time c) w) = Normal tt
    /\ length (markers (do_click w c)) = S (length (markers w))
    /\ firstn (length (markers w)) (markers (do_click w c)) = markers w
    /\ length (markers (do_clicks cs w)) = (length (markers w) + length cs)%nat
    /\ firstn (length (markers w)) (markers (do_clicks cs w)) = markers w.
Proof.
  intros w c cs. split; [reflexivity|].
  rewrite do_click_markers, do_clicks_markers.
  rewrite !length_app, length_map, !firstn_length_app. simpl.
  repeat split; lia.
Qed.

(** The first scenario of section 8: two clicks, then a click on the first
    marker. *)
Example two_clicks_scenario :
  markers (do_clicks two_clicks (initial_world 0)) =
    [ {| Marker.lat := 37.77; Marker.lng := (-122.41); Marker.time := 1700000000000 |};
      {| Marker.lat := 37.78; Marker.lng := (-122.42); Marker.time := 1700000000001 |} ]
  /\ selected (exec (selectMarker (marker_of_click
                       {| click_at := sighting_1; click_time := 1700000000000 |}))
                 (do_clicks two_clicks (initial_world 0))) =
     nth_error (markers (do_clicks two_clicks (initial_world 0))) 0.
Proof. split; reflexivity. Qed.

(** C3 (selection exclusivity).  After a click on marker M and then a click
    on marker N the selection is N, whatever M and N are, so in particular
    when they differ: the cell holds at most one marker.  Closing the info
    window leaves no selection from any state, and closing it twice is the
    same as closing it once. *)
Theorem C3_selection_exclusive :
  forall (w : World) (M N : Marker.t),
    selected (exec (selectMarker M ;; selectMarker N) w) = Some N
    /\ selected (exec clearSelection w) = None
    /\ exec (clearSelection ;; clearSelection) w = exec clearSelection w.
Proof.
  intros w M N. repeat split.
Qed.

(** C10 (frame).  A map click changes [markers] and nothing else, so the
    selection is as before; a marker click and the closing of the info window
    change [selected] and nothing else, so the marker list is as before. *)
Theorem C10_frame :
  forall (w : World) (e : MapMouseEvent.t) (m : Marker.t),
    (selected (exec (onMapClick e) w) = selected w
     /\ mapRef (exec (onMapClick e) w) = mapRef w
     /\ places (exec (onMapClick e) w) = places w
     /\ console (exec (onMapClick e) w) = console w
     /\ requests (exec (onMapClick e) w) = requests w)
    /\ (markers (exec (Marker_onClick m) w) = markers w
        /\ exec (Marker_onClick m) w = set_selected (Some m) w)
    /\ (markers (exec InfoWindow_onCloseClick w) = markers w
        /\ exec InfoWindow_onCloseClick w = set_selected None w).
Proof.
  intros w e m. repeat split.
Qed.

(* ================================================================== *)
(** * The keys of the markers *)

Lemma markers_of_clicks (cs : list Click) (now : Date) :
  markers (do_clicks cs (initial_world now)) = map marker_of_click cs.
Proof. now rewrite do_clicks_markers. Qed.

Lemma times_of_clicks (cs : list Click) (now : Date) :
  map Marker.time (markers (do_clicks cs (initial_world now))) = map click_time cs.
Proof.
  rewrite markers_of_clicks, map_map. reflexivity.
Qed.

Lemma keys_of_clicks (cs : list Click) (now : Date) :
  map Marker_key (markers (do_clicks cs (initial_world now))) =
  map toISOString (map click_time cs).
Proof.
  rewrite markers_of_clicks, !map_map. reflexivity.
Qed.

Lemma NoDup_map_valid (ts : list Date) :
  Forall valid_time ts -> NoDup ts -> NoDup (map toISOString ts).
Proof.
  induction 1 as [|t ts Ht Hts IH]; intro Hnd; simpl; [constructor|].
  inversion Hnd as [|? ? Hnotin Hnd']; subst. constructor; [|now apply IH].
  intro Hin. apply in_map_iff in Hin as (t' & Heq & Hin').
  apply Hnotin. rewrite Forall_forall in Hts.
  rewrite (toISOString_inj t t' Ht (Hts t' Hin') (eq_sym Heq)). assumption.
Qed.

(** C8 as the code has it (marker identity).  The [time] of the markers of
    a list built by map clicks are the readings of the clock at the clicks,
    in order, and the code adds nothing to tell two markers apart: the keys
    [marker.time.toISOString()] are pairwise distinct exactly when the
    readings are. *)
Theorem C8_keys_distinct_iff_clock_distinct :
  forall (cs : list Click) (now : Date),
    Forall valid_time (map click_time cs) ->
    map Marker.time (markers (do_clicks cs (initial_world now))) = map click_time cs
    /\ (NoDup (map click_time cs) <->
        NoDup (map Marker_key (markers (do_clicks cs (initial_world now))))).
Proof.
  intros cs now Hvalid. split; [apply times_of_clicks|].
  rewrite keys_of_clicks. split.
  - now apply NoDup_map_valid.
  - apply NoDup_map_inv.
Qed.

Lemma C8_keys_distinct_witness :
  Forall valid_time (map click_time two_clicks)
  /\ NoDup (map Marker_key (markers (do_clicks two_clicks (initial_world 0)))).
Proof.
  assert (V : Forall valid_time (map click_time two_clicks)).
  { repeat constructor; unfold valid_time; simpl; lia. }
  split; [exact V|].
  apply (proj2 (C8_keys_distinct_iff_clock_distinct two_clicks 0 V)).
  repeat constructor; simpl; intuition lia.
Defined.

(** C8 as the specification words it fails: two clicks handled within the
    same millisecond give two markers with the same [time] and the same
    key. *)
Lemma C8_same_instant_same_key :
  map Marker_key (markers (do_clicks two_clicks_one_instant (initial_world 0))) =
    ["2023-11-14T22:13:20.000Z"; "2023-11-14T22:13:20.000Z"]
  /\ ~ NoDup (map Marker.time (markers (do_clicks two_clicks_one_instant (initial_world 0))))
  /\ ~ NoDup (map Marker_key (markers (do_clicks two_clicks_one_instant (initial_world 0)))).
Proof.
  assert (Ek : map Marker_key
                 (markers (do_clicks two_clicks_one_instant (initial_world 0))) =
               ["2023-11-14T22:13:20.000Z"; "2023-11-14T22:13:20.000Z"])
    by (vm_compute; reflexivity).
  assert (Et : map Marker.time
                 (markers (do_clicks two_clicks_one_instant (initial_world 0))) =
               [1700000000000; 1700000000000])
    by reflexivity.
  rewrite Ek, Et. split; [reflexivity|].
  split; intro H; inversion H as [|? ? Hnotin _]; apply Hnotin; left; reflexivity.
Qed.

(* ================================================================== *)
(** * The camera *)

Lemma latLng_eta (c : LatLngLiteral.t) :
  {| LatLngLiteral.lat := LatLngLiteral.lat c;
     LatLngLiteral.lng := LatLngLiteral.lng c |} = c.
Proof. now destruct c. Qed.

Lemma panTo_attached (w : World) (map : GoogleMap.t) (c : LatLngLiteral.t) :
  mapRef w = Some map ->
  panTo c w =
  (Normal tt,
   set_mapRef (Some (GoogleMap.setZoom 14 (GoogleMap.panTo c map))) w).
Proof.
  intro H. unfold panTo, bind, mapRef_current. rewrite H, latLng_eta.
  reflexivity.
Qed.

Lemma panTo_detached (w : World) (c : LatLngLiteral.t) :
  mapRef w = None ->
  panTo c w = (Throw (TypeError "Cannot read properties of undefined"), w).
Proof.
  intro H. unfold panTo, bind, mapRef_current. now rewrite H.
Qed.

Lemma panTo_twice (w : World) (c : LatLngLiteral.t) :
  (panTo c ;; panTo c) w =
  match mapRef w with
  | Some map =>
      (Normal tt,
       set_mapRef (Some (GoogleMap.setZoom 14 (GoogleMap.panTo c
                     (GoogleMap.setZoom 14 (GoogleMap.panTo c map))))) w)
  | None => (Throw (TypeError "Cannot read properties of undefined"), w)
  end.
Proof.
  unfold bind at 1. destruct (mapRef w) as [map|] eqn:H.
  - rewrite (panTo_attached w map c H).
    now rewrite (panTo_attached (set_mapRef _ w) _ c eq_refl).
  - now rewrite (panTo_detached w c H).
Qed.

(** C7 (moveTo semantics).  On an attached view [panTo c] returns nothing and
    its whole effect is on the map instance: one [panTo(c)] call then one
    [setZoom(14)] call, in that order, after which the view is centred on [c]
    at zoom 14.  Markers, selection, search state, console and requests are
    as before. *)
Theorem C7_panTo_pans_then_zooms :
  forall (w : World) (map : GoogleMap.t) (c : LatLngLiteral.t),
    mapRef w = Some map ->
    panTo c w =
      (Normal tt,
       set_mapRef (Some (GoogleMap.setZoom 14 (GoogleMap.panTo c map))) w)
    /\ calls_on (mapRef (exec (panTo c) w)) =
         GoogleMap.calls map ++ [GoogleMap.CallPanTo c; GoogleMap.CallSetZoom 14]
    /\ option_map view_state (mapRef (exec (panTo c) w)) = Some (c, 14)
    /\ markers (exec (panTo c) w) = markers w
    /\ selected (exec (panTo c) w) = selected w
    /\ places (exec (panTo c) w) = places w
    /\ console (exec (panTo c) w) = console w
    /\ requests (exec (panTo c) w) = requests w.
Proof.
  intros w map c H. unfold exec. rewrite (panTo_attached w map c H). simpl.
  rewrite <- app_assoc. repeat split.
Qed.

Lemma C7_panTo_pans_then_zooms_witness :
  mapRef (exec (onMapLoad initial_map) (initial_world 0)) = Some initial_map
  /\ calls_on (mapRef (exec (panTo {| LatLngLiteral.lat := 40.0; LatLngLiteral.lng := (-75.0) |})
                         (exec (onMapLoad initial_map) (initial_world 0)))) =
     [GoogleMap.CallPanTo {| LatLngLiteral.lat := 40.0; LatLngLiteral.lng := (-75.0) |};
      GoogleMap.CallSetZoom 14].
Proof.
  split; [reflexivity|].
  exact (proj1 (proj2
    (C7_panTo_pans_then_zooms (exec (onMapLoad initial_map) (initial_world 0))
       initial_map
       {| LatLngLiteral.lat := 40.0; LatLngLiteral.lng := (-75.0) |} eq_refl))).
Defined.

(** C6 (camera idempotence).  Two [panTo c] in a row leave the view with the
    same pan target and zoom as one, complete the same way and agree on every
    other cell; before the view is attached both leave [mapRef.current]
    undefined.  On the map instance itself, pan-then-zoom twice gives the
    view of pan-then-zoom once for every zoom level. *)
Theorem C6_camera_idempotent :
  forall (w : World) (c : LatLngLiteral.t) (z : Z) (map : GoogleMap.t),
    option_map view_state (mapRef (exec (panTo c ;; panTo c) w)) =
      option_map view_state (mapRef (exec (panTo c) w))
    /\ completion (panTo c ;; panTo c) w = completion (panTo c) w
    /\ markers (exec (panTo c ;; panTo c) w) = markers (exec (panTo c) w)
    /\ selected (exec (panTo c ;; panTo c) w) = selected (exec (panTo c) w)
    /\ view_state (GoogleMap.setZoom z (GoogleMap.panTo c
                     (GoogleMap.setZoom z (GoogleMap.panTo c map)))) =
       view_state (GoogleMap.setZoom z (GoogleMap.panTo c map)).
Proof.
  intros w c z map. unfold exec, completion.
  rewrite panTo_twice.
  destruct (mapRef w) as [m|] eqn:H.
  - rewrite (panTo_attached w m c H). repeat split.
  - rewrite (panTo_detached w c H). simpl. rewrite H. repeat split.
Qed.

(** C9 (attach precondition).  While [mapRef.current] is undefined, as it is
    in the initial state, [panTo] throws a TypeError at its first line and
    touches nothing; the function has no handler of its own, so the exception
    reaches its caller.  Once [onMapLoad] has stored the map, and whenever
    [mapRef.current] holds one, [panTo] completes normally. *)
Theorem C9_panTo_needs_onMapLoad :
  forall (w : World) (c : LatLngLiteral.t) (map : GoogleMap.t) (now : Date),
    match mapRef w with
    | None =>
        panTo c w = (Throw (TypeError "Cannot read properties of undefined"), w)
    | Some _ => completion (panTo c) w = Normal tt
    end
    /\ completion (panTo c) (initial_world now) =
         Throw (TypeError "Cannot read properties of undefined")
    /\ completion (onMapLoad map ;; panTo c) w = Normal tt.
Proof.
  intros w c map now. repeat split.
  destruct (mapRef w) as [m|] eqn:H.
  - unfold completion. now rewrite (panTo_attached w m c H).
  - now apply panTo_detached.
Qed.

(* ================================================================== *)
(** * [Locate] *)

Lemma locate_found (w : World) (position : GeolocationPosition.t) :
  locateCurrentPosition (PositionFound position) w =
  match mapRef w with
  | Some map =>
      (Normal tt,
       add_console (LogPosition position)
         (set_mapRef
            (Some (GoogleMap.setZoom 14
               (GoogleMap.panTo
                  {| LatLngLiteral.lat :=
                       GeolocationPosition.latitude (GeolocationPosition.coords position);
                     LatLngLiteral.lng :=
                       GeolocationPosition.longitude (GeolocationPosition.coords position) |}
                  map)))
            (add_request ReqCurrentPosition w)))
  | None =>
      (Throw (TypeError "Cannot read properties of undefined"),
       add_request ReqCurrentPosition w)
  end.
Proof.
  cbv [locateCurrentPosition Locate_onClick getCurrentPosition bind send modify
       console_log].
  destruct (mapRef w) as [map|] eqn:H.
  - rewrite panTo_attached with (map := map) by exact H. reflexivity.
  - rewrite panTo_detached by exact H. reflexivity.
Qed.

(** C4 (geolocation).  One click on the Locate button sends one request to
    the sensor.  When the sensor answers with a position, [panTo] runs once
    on [{lat: latitude, lng: longitude}]: the attached map receives one
    [panTo] with that coordinate followed by one [setZoom(14)], and the
    position is logged (on a detached view the TypeError of [panTo] leaves
    the callback).  When the sensor fails, the error callback returns null:
    normal completion, no second request, no call on the map, nothing else
    changed. *)
Theorem C4_locate :
  forall (w : World) (position : GeolocationPosition.t) (reason : string),
    locateCurrentPosition (PositionFound position) w =
      match mapRef w with
      | Some map =>
          (Normal tt,
           add_console (LogPosition position)
             (set_mapRef
                (Some (GoogleMap.setZoom 14
                   (GoogleMap.panTo
                      {| LatLngLiteral.lat :=
                           GeolocationPosition.latitude (GeolocationPosition.coords position);
                         LatLngLiteral.lng :=
                           GeolocationPosition.longitude (GeolocationPosition.coords position) |}
                      map)))
                (add_request ReqCurrentPosition w)))
      | None =>
          (Throw (TypeError "Cannot read properties of undefined"),
           add_request ReqCurrentPosition w)
      end
    /\ (calls_on (mapRef (exec (locateCurrentPosition (PositionFound position)) w)) =
        match mapRef w with
        | Some map =>
            GoogleMap.calls map ++
            [GoogleMap.CallPanTo
               {| LatLngLiteral.lat :=
                    GeolocationPosition.latitude (GeolocationPosition.coords position);
                  LatLngLiteral.lng :=
                    GeolocationPosition.longitude (GeolocationPosition.coords position) |};
             GoogleMap.CallSetZoom 14]
        | None => []
        end)
    /\ requests (exec (locateCurrentPosition (PositionFound position)) w) =
         requests w ++ [ReqCurrentPosition]
    /\ locateCurrentPosition (PositionError reason) w =
         (Normal tt, add_request ReqCurrentPosition w)
    /\ calls_on (mapRef (exec (locateCurrentPosition (PositionError reason)) w)) =
         calls_on (mapRef w)
    /\ requests (exec (locateCurrentPosition (PositionError reason)) w) =
         requests w ++ [ReqCurrentPosition].
Proof.
  intros w position reason.
  split; [apply locate_found|].
  unfold exec at 1 2. rewrite locate_found.
  destruct (mapRef w) as [map|] eqn:H; simpl; rewrite ?H, <- ?app_assoc;
    repeat split.
Qed.

(** The second scenario of section 8: the sensor resolves to [{40.0, -75.0}]
    on a freshly attached map. *)
Example locate_scenario :
  calls_on (mapRef (exec (onMapLoad initial_map ;;
                          locateCurrentPosition (PositionFound
                            {| GeolocationPosition.coords :=
                                 {| GeolocationPosition.latitude := 40.0;
                                    GeolocationPosition.longitude := (-75.0) |};
                               GeolocationPosition.timestamp := 0 |}))
                      (initial_world 0))) =
    [GoogleMap.CallPanTo {| LatLngLiteral.lat := 40.0; LatLngLiteral.lng := (-75.0) |};
     GoogleMap.CallSetZoom 14].
Proof. reflexivity. Qed.

(* ================================================================== *)
(** * [Search] *)

Section SearchProperties.

Variable GeocoderResult : Type.
Variable geocode_settles : string -> Completion (list GeocoderResult).
Variable latLng_settles : option GeocoderResult -> Completion LatLngLiteral.t.

Local Abbreviation select := (selectSuggestion geocode_settles latLng_settles).

Lemma select_unfold (address : string) (w : World) :
  select address w =
  let w1 := add_request (ReqGeocode address) (set_places (picked address) w) in
  match geocode_settles address with
  | Normal results =>
      match latLng_settles (nth_error results 0) with
      | Normal ll =>
          let w2 := add_console (LogLatLng (LatLngLiteral.lat ll) (LatLngLiteral.lng ll)) w1 in
          match mapRef w with
          | Some map =>
              (Normal tt,
               set_mapRef (Some (GoogleMap.setZoom 14 (GoogleMap.panTo ll map))) w2)
          | None => (Normal tt, add_console (LogString "Error!") w2)
          end
      | Throw _ => (Normal tt, add_console (LogString "Error!") w1)
      end
  | Throw _ => (Normal tt, add_console (LogString "Error!") w1)
  end.
Proof.
  cbv [selectSuggestion Combobox_onSelect try_catch bind setValue
       clearSuggestions getGeocode getLatLng await modify send console_log ret].
  destruct (geocode_settles address) as [results|e]; [|reflexivity].
  destruct (latLng_settles (nth_error results 0)) as [ll|e]; [|reflexivity].
  rewrite latLng_eta.
  destruct (mapRef w) as [map|] eqn:H.
  - rewrite panTo_attached with (map := map) by exact H. reflexivity.
  - rewrite panTo_detached by exact H. reflexivity.
Qed.

Lemma select_caught (address : string) (w : World) (e : JsError) :
  geocode_settles address = Throw e
  \/ (exists results, geocode_settles address = Normal results
                      /\ latLng_settles (nth_error results 0) = Throw e) ->
  select address w =
  (Normal tt,
   add_console (LogString "Error!")
     (add_request (ReqGeocode address) (set_places (picked address) w))).
Proof.
  intros [H | [results [H1 H2]]]; rewrite select_unfold; cbv zeta.
  - now rewrite H.
  - now rewrite H1, H2.
Qed.

(** C5 (successful selection).  When [getGeocode] resolves and [getLatLng]
    resolves on the first element of the result list to [c] (the other
    elements are never looked at), the handler completes normally having set
    the text of the box to the selected address, sent the geocoding request
    and no suggestion request, emptied the suggestions, logged the
    coordinate and called [panTo c]: the attached map receives [panTo(c)]
    then [setZoom(14)] (on a detached view the TypeError of [panTo] is caught
    and "Error!" is logged).  Markers and selection are untouched. *)
Theorem C5_select_success :
  forall (w : World) (address : string) (results : list GeocoderResult)
         (first : GeocoderResult) (c : LatLngLiteral.t),
    geocode_settles address = Normal results ->
    nth_error results 0 = Some first ->
    latLng_settles (Some first) = Normal c ->
    completion (select address) w = Normal tt
    /\ places (exec (select address) w) = picked address (places w)
    /\ Places.value (places (exec (select address) w)) = address
    /\ Places.suggestions (places (exec (select address) w)) = Places.no_suggestions
    /\ requests (exec (select address) w) = requests w ++ [ReqGeocode address]
    /\ mapRef (exec (select address) w) =
         option_map (fun map => GoogleMap.setZoom 14 (GoogleMap.panTo c map)) (mapRef w)
    /\ calls_on (mapRef (exec (select address) w)) =
         match mapRef w with
         | Some map =>
             GoogleMap.calls map ++ [GoogleMap.CallPanTo c; GoogleMap.CallSetZoom 14]
         | None => []
         end
    /\ console (exec (select address) w) =
         console w ++
         LogLatLng (LatLngLiteral.lat c) (LatLngLiteral.lng c) ::
         match mapRef w with
         | Some _ => []
         | None => [LogString "Error!"]
         end
    /\ markers (exec (select address) w) = markers w
    /\ selected (exec (select address) w) = selected w.
Proof.
  intros w address results first c Hgeo Hfirst Hll.
  unfold completion, exec. rewrite select_unfold. cbv zeta.
  rewrite Hgeo, Hfirst, Hll.
  destruct (mapRef w) as [map|] eqn:H; simpl; rewrite ?H, <- ?app_assoc;
    repeat split.
Qed.

(** C2 as the code has it (silent failure).  When [getGeocode] rejects, or
    resolves to an empty list on which [getLatLng(undefined)] fails, the
    error is caught: the handler logs "Error!" and completes normally, the
    suggestions are empty and neither [mapRef.current] nor the map behind it
    is touched, so [panTo] did not run.  The text of the box is the selected
    address: [setValue(address, false)] ran before the [try]. *)
Theorem C2_select_failure :
  forall (w : World) (address : string) (e : JsError),
    geocode_settles address = Throw e
    \/ (geocode_settles address = Normal [] /\ latLng_settles None = Throw e) ->
    select address w =
      (Normal tt,
       add_console (LogString "Error!")
         (add_request (ReqGeocode address) (set_places (picked address) w)))
    /\ Places.value (places (exec (select address) w)) = address
    /\ Places.suggestions (places (exec (select address) w)) = Places.no_suggestions
    /\ mapRef (exec (select address) w) = mapRef w
    /\ console (exec (select address) w) = console w ++ [LogString "Error!"]
    /\ requests (exec (select address) w) = requests w ++ [ReqGeocode address].
Proof.
  intros w address e H.
  assert (E : select address w =
    (Normal tt,
     add_console (LogString "Error!")
       (add_request (ReqGeocode address) (set_places (picked address) w)))).
  { apply select_caught with (e := e).
    destruct H as [H | [H1 H2]]; [now left | right; now exists []]. }
  unfold exec. rewrite E. repeat split.
Qed.

End SearchProperties.

Lemma C5_select_success_witness :
  demo_geocode "San Francisco, CA, USA" =
    Normal [center; {| LatLngLiteral.lat := 40.0; LatLngLiteral.lng := (-75.0) |}]
  /\ Places.value (places (exec
        (selectSuggestion demo_geocode demo_latLng "San Francisco, CA, USA")
        (exec (onMapLoad initial_map) typed_san))) = "San Francisco, CA, USA"
  /\ calls_on (mapRef (exec
        (selectSuggestion demo_geocode demo_latLng "San Francisco, CA, USA")
        (exec (onMapLoad initial_map) typed_san))) =
      [GoogleMap.CallPanTo center; GoogleMap.CallSetZoom 14].
Proof.
  pose proof (C5_select_success _ demo_geocode demo_latLng
                (exec (onMapLoad initial_map) typed_san)
                "San Francisco, CA, USA" _ center center
                eq_refl eq_refl eq_refl) as H.
  split; [reflexivity|].
  split; [exact (proj1 (proj2 (proj2 H))) |].
  exact (proj1 (proj2 (proj2 (proj2 (proj2 (proj2 (proj2 H))))))).
Defined.

Lemma C2_select_failure_witness :
  demo_geocode "Atlantis" = Normal []
  /\ demo_latLng None = Throw (TypeError "Cannot read properties of undefined")
  /\ Places.value (places (exec (selectSuggestion demo_geocode demo_latLng "Atlantis")
                             (exec (onMapLoad initial_map) typed_san))) = "Atlantis"
  /\ mapRef (exec (selectSuggestion demo_geocode demo_latLng "Atlantis")
                 (exec (onMapLoad initial_map) typed_san)) = Some initial_map.
Proof.
  pose proof (C2_select_failure _ demo_geocode demo_latLng
                (exec (onMapLoad initial_map) typed_san) "Atlantis"
                (TypeError "Cannot read properties of undefined")
                (or_intror (conj eq_refl eq_refl))) as H.
  split; [reflexivity|]. split; [reflexivity|].
  split; [exact (proj1 (proj2 H)) |].
  exact (proj1 (proj2 (proj2 (proj2 H)))).
Defined.

(** C2 as the specification words it fails: the user has typed "san", picks
    the suggestion "San Francisco, CA, USA", the geocoding service rejects;
    the box now reads "San Francisco, CA, USA", not "san". *)
Lemma C2_queryText_changes :
  demo_geocode_down "San Francisco, CA, USA" = Throw (Rejected "UNKNOWN_ERROR")
  /\ Places.value (places typed_san) = "san"
  /\ Places.value (places (exec
        (selectSuggestion demo_geocode_down demo_latLng "San Francisco, CA, USA")
        typed_san)) = "San Francisco, CA, USA"
  /\ Places.value (places (exec
        (selectSuggestion demo_geocode_down demo_latLng "San Francisco, CA, USA")
        typed_san)) <> Places.value (places typed_san).
Proof.
  repeat split. discriminate.
Qed.

(** What becomes of the TypeError of a detached [panTo] at its two call
    sites: it leaves the callback of [Locate], and it is caught by the
    [try] of [Search], which logs "Error!". *)
Lemma detached_panTo_at_call_sites :
  completion (locateCurrentPosition (PositionFound
                {| GeolocationPosition.coords :=
                     {| GeolocationPosition.latitude := 40.0;
                        GeolocationPosition.longitude := (-75.0) |};
                   GeolocationPosition.timestamp := 0 |}))
             typed_san =
    Throw (TypeError "Cannot read properties of undefined")
  /\ selectSuggestion demo_geocode demo_latLng "San Francisco, CA, USA" typed_san =
       (Normal tt,
        add_console (LogString "Error!")
          (add_console (LogLatLng (LatLngLiteral.lat center) (LatLngLiteral.lng center))
             (add_request (ReqGeocode "San Francisco, CA, USA")
                (set_places (picked "San Francisco, CA, USA") typed_san)))).
Proof. split; reflexivity. Qed.

(* ================================================================== *)
(** * The page over any sequence of events *)

Lemma exec_locate (reply : SensorReply) (w : World) :
  exec (locateCurrentPosition reply) w =
  match reply with
  | PositionFound position =>
      match mapRef w with
      | Some map =>
          add_console (LogPosition position)
            (set_mapRef
               (Some (GoogleMap.setZoom 14
                  (GoogleMap.panTo
                     {| LatLngLiteral.lat :=
                          GeolocationPosition.latitude (GeolocationPosition.coords position);
                        LatLngLiteral.lng :=
                          GeolocationPosition.longitude (GeolocationPosition.coords position) |}
                     map)))
               (add_request ReqCurrentPosition w))
      | None => add_request ReqCurrentPosition w
      end
  | PositionError _ => add_request ReqCurrentPosition w
  end.
Proof.
  destruct reply as [position|reason]; [|reflexivity].
  unfold exec. rewrite locate_found. now destruct (mapRef w).
Qed.

Lemma exec_select (GeocoderResult : Type)
    (geocode_settles : string -> Completion (list GeocoderResult))
    (latLng_settles : option GeocoderResult -> Completion LatLngLiteral.t)
    (address : string) (w : World) :
  exists (log : list LogEntry) (moved : option LatLngLiteral.t),
    exec (selectSuggestion geocode_settles latLng_settles address) w =
    {| markers := markers w;
       selected := selected w;
       mapRef :=
         match moved, mapRef w with
         | Some c, Some map => Some (GoogleMap.setZoom 14 (GoogleMap.panTo c map))
         | _, _ => mapRef w
         end;
       places := picked address (places w);
       clock := clock w;
       console := console w ++ log;
       requests := requests w ++ [ReqGeocode address] |}.
Proof.
  unfold exec. rewrite select_unfold. cbv zeta.
  unfold add_console, add_request, set_places, set_mapRef.
  destruct (geocode_settles address) as [results|e].
  - destruct (latLng_settles (nth_error results 0)) as [ll|e].
    + destruct (mapRef w) as [map|] eqn:H.
      * exists [LogLatLng (LatLngLiteral.lat ll) (LatLngLiteral.lng ll)], (Some ll).
        reflexivity.
      * exists [LogLatLng (LatLngLiteral.lat ll) (LatLngLiteral.lng ll);
                LogString "Error!"], None.
        simpl. rewrite <- app_assoc. reflexivity.
    + exists [LogString "Error!"], None. simpl. now destruct (mapRef w).
  - exists [LogString "Error!"], None. simpl. now destruct (mapRef w).
Qed.

Section Page.

Variable GeocoderResult : Type.
Implicit Types (ev : Event GeocoderResult) (evs : list (Event GeocoderResult)).

Lemma rendered_marker (w : World) (i : nat) :
  nth_error (GoogleMapElement.markers (App_map w)) i =
  option_map (fun marker =>
                {| MarkerElement.key := Marker_key marker;
                   MarkerElement.position :=
                     {| LatLngLiteral.lat := Marker.lat marker;
                        LatLngLiteral.lng := Marker.lng marker |};
                   MarkerElement.icon :=
                     {| Icon.url := "/bear.svg";
                        Icon.scaledSize := (30, 30);
                        Icon.origin := (0, 0);
                        Icon.anchor := (15, 15) |};
                   MarkerElement.onClick := Marker_onClick marker |})
             (nth_error (markers w) i).
Proof. simpl. apply nth_error_map. Qed.

Lemma dispatch_MarkerClick (w : World) (i : nat) :
  dispatch (GeocoderResult := GeocoderResult) (MarkerClick i) w =
  match nth_error (markers w) i with
  | Some marker => set_selected (Some marker) w
  | None => w
  end.
Proof.
  unfold dispatch. cbv zeta. rewrite rendered_marker.
  now destruct (nth_error (markers w) i).
Qed.

Lemma dispatch_InfoWindowClose (w : World) :
  dispatch (GeocoderResult := GeocoderResult) InfoWindowClose w =
  match selected w with
  | Some _ => set_selected None w
  | None => w
  end.
Proof. unfold dispatch. simpl. now destruct (selected w). Qed.

Lemma dispatch_OptionSelect (w : World) (i : nat)
    (geocode_reply : Completion (list GeocoderResult))
    (latLng_reply : option GeocoderResult -> Completion LatLngLiteral.t) :
  dispatch (OptionSelect i geocode_reply latLng_reply) w =
  match nth_error (SearchElement.options (Search_render panTo (places w))) i with
  | Some picked_option =>
      exec (selectSuggestion (fun _ => geocode_reply) latLng_reply
              (ComboboxOption.value picked_option)) w
  | None => w
  end.
Proof. reflexivity. Qed.

(** What one event does to the marker list, the clock and the selection. *)
Lemma dispatch_markers ev (w : World) :
  markers (dispatch ev w) =
  markers w ++
  match ev with
  | MapClick e =>
      [marker_of_click {| click_at := MapMouseEvent.latLng e; click_time := clock w |}]
  | _ => []
  end.
Proof.
  destruct ev as [t|r s|m|e|i| |reply|text|i g l];
    try (rewrite app_nil_r); try reflexivity.
  - rewrite dispatch_MarkerClick. now destruct (nth_error (markers w) i).
  - rewrite dispatch_InfoWindowClose. now destruct (selected w).
  - unfold dispatch, Locate_render. cbv zeta. simpl LocateElement.onClick.
    fold locateCurrentPosition. rewrite exec_locate.
    destruct reply; [destruct (mapRef w)|]; reflexivity.
  - unfold dispatch. cbv zeta.
    now destruct (SearchElement.disabled (Search_render panTo (places w))).
  - rewrite dispatch_OptionSelect.
    destruct (nth_error _ i) as [o|]; [|reflexivity].
    destruct (exec_select _ (fun _ => g) l (ComboboxOption.value o) w)
      as (log & moved & E).
    now rewrite E.
Qed.

Lemma dispatch_clock ev (w : World) :
  clock (dispatch ev w) =
  match ev with
  | Tick t => t
  | _ => clock w
  end.
Proof.
  destruct ev as [t|r s|m|e|i| |reply|text|i g l]; try reflexivity.
  - rewrite dispatch_MarkerClick. now destruct (nth_error (markers w) i).
  - rewrite dispatch_InfoWindowClose. now destruct (selected w).
  - unfold dispatch, Locate_render. cbv zeta. simpl LocateElement.onClick.
    fold locateCurrentPosition. rewrite exec_locate.
    destruct reply; [destruct (mapRef w)|]; reflexivity.
  - unfold dispatch. cbv zeta.
    now destruct (SearchElement.disabled (Search_render panTo (places w))).
  - rewrite dispatch_OptionSelect.
    destruct (nth_error _ i) as [o|]; [|reflexivity].
    destruct (exec_select _ (fun _ => g) l (ComboboxOption.value o) w)
      as (log & moved & E).
    now rewrite E.
Qed.

Lemma dispatch_selected ev (w : World) :
  selected (dispatch ev w) =
  match ev with
  | MarkerClick i =>
      match nth_error (markers w) i with
      | Some marker => Some marker
      | None => selected w
      end
  | InfoWindowClose => None
  | _ => selected w
  end.
Proof.
  destruct ev as [t|r s|m|e|i| |reply|text|i g l]; try reflexivity.
  - rewrite dispatch_MarkerClick. now destruct (nth_error (markers w) i).
  - rewrite dispatch_InfoWindowClose. now destruct (selected w) eqn:H.
  - unfold dispatch, Locate_render. cbv zeta. simpl LocateElement.onClick.
    fold locateCurrentPosition. rewrite exec_locate.
    destruct reply; [destruct (mapRef w)|]; reflexivity.
  - unfold dispatch. cbv zeta.
    now destruct (SearchElement.disabled (Search_render panTo (places w))).
  - rewrite dispatch_OptionSelect.
    destruct (nth_error _ i) as [o|]; [|reflexivity].
    destruct (exec_select _ (fun _ => g) l (ComboboxOption.value o) w)
      as (log & moved & E).
    now rewrite E.
Qed.

Lemma run_cons ev evs (w : World) :
  run (ev :: evs) w = run evs (dispatch ev w).
Proof. reflexivity. Qed.

Lemma run_markers evs :
  forall w, markers (run evs w) =
            markers w ++ map marker_of_click (clicks_of evs (clock w)).
Proof.
  induction evs as [|ev evs IH]; intro w.
  - simpl. now rewrite app_nil_r.
  - rewrite run_cons, IH, dispatch_markers, dispatch_clock.
    destruct ev; simpl; rewrite <- ?app_assoc, ?app_nil_r; reflexivity.
Qed.

Lemma dispatch_selection_in_list ev (w : World) :
  selection_in_list w -> selection_in_list (dispatch ev w).
Proof.
  unfold selection_in_list. intro H.
  rewrite dispatch_selected, dispatch_markers.
  destruct ev as [t|r s|m|e|i| |reply|text|i g l]; rewrite ?app_nil_r;
    try assumption; try exact I.
  - destruct (selected w); [apply in_or_app; now left | exact I].
  - destruct (nth_error (markers w) i) as [marker|] eqn:E; [|assumption].
    exact (nth_error_In _ _ E).
Qed.

End Page.

Section PageProperties.

Variable GeocoderResult : Type.
Implicit Types (ev : Event GeocoderResult) (evs : list (Event GeocoderResult)).

(** X1.  Whatever happens on the page, the marker list only grows, and only
    by map clicks: after any sequence of events it is the list it was,
    followed by one marker per map click of the sequence, in order, at the
    clicked coordinate and with the reading of the clock at that click.
    Marker clicks, the info window, Locate and Search, with any answer of
    the sensor and of the geocoder, never add, drop or reorder a marker. *)
Theorem markers_only_from_map_clicks :
  forall evs (w : World),
    markers (run evs w) =
      markers w ++ map marker_of_click (clicks_of evs (clock w))
    /\ firstn (length (markers w)) (markers (run evs w)) = markers w
    /\ length (markers (run evs w)) =
         (length (markers w) + length (clicks_of evs (clock w)))%nat.
Proof.
  intros evs w. rewrite run_markers, firstn_length_app, length_app, length_map.
  repeat split.
Qed.

Lemma run_selection_in_list evs :
  forall w, selection_in_list w -> selection_in_list (run evs w).
Proof.
  induction evs as [|ev evs IH]; intros w H; [assumption|].
  rewrite run_cons. apply IH. now apply dispatch_selection_in_list.
Qed.

Lemma selection_in_list_on_marker (w : World) :
  selection_in_list w -> info_window_on_marker w.
Proof.
  unfold selection_in_list, info_window_on_marker. simpl.
  destruct (selected w) as [m|]; [|trivial].
  intro H. rewrite map_map. simpl.
  apply (in_map (fun marker =>
           {| LatLngLiteral.lat := Marker.lat marker;
              LatLngLiteral.lng := Marker.lng marker |}) _ _ H).
Qed.

(** X2.  The selection never dangles: if the selected marker is in the list
    (or nothing is selected), the same holds after any sequence of events,
    and the info window, when one is rendered, sits at the position of a
    rendered marker.  A marker can only be selected through the [onClick] of
    its own rendered element, and markers are never removed. *)
Theorem selection_stays_in_list :
  forall evs (w : World),
    selection_in_list w ->
    selection_in_list (run evs w) /\ info_window_on_marker (run evs w).
Proof.
  intros evs w H. pose proof (run_selection_in_list evs w H) as H'.
  split; [assumption | now apply selection_in_list_on_marker].
Qed.

End PageProperties.

Lemma selection_stays_in_list_witness :
  selection_in_list (initial_world 0)
  /\ selection_in_list (run demo_session (initial_world 0))
  /\ info_window_on_marker (run demo_session (initial_world 0)).
Proof.
  split; [exact I|].
  exact (selection_stays_in_list _ demo_session (initial_world 0) I).
Defined.

(* ================================================================== *)
(** * The camera and the services over any sequence of events *)

Lemma pair_induction {A} (P : list A -> Prop) :
  P [] -> (forall a, P [a]) -> (forall a b l, P l -> P (a :: b :: l)) ->
  forall l, P l.
Proof.
  intros H0 H1 H2.
  assert (H : forall l, P l /\ forall a, P (a :: l)).
  { induction l as [|x l [IH1 IH2]]; split; auto. }
  intro l. apply H.
Qed.

Lemma pan_zoom_pairs_app (calls : list GoogleMap.Call) (c : LatLngLiteral.t) :
  pan_zoom_pairs calls = true ->
  pan_zoom_pairs (calls ++ [GoogleMap.CallPanTo c; GoogleMap.CallSetZoom 14]) = true.
Proof.
  induction calls as [|a|a b rest IH] using pair_induction; intro H.
  - reflexivity.
  - destruct a; discriminate.
  - destruct a as [c'|z']; [|discriminate].
    destruct b as [c''|z]; [discriminate|].
    simpl in H |- *. apply andb_true_iff in H as [Hz Hrest].
    rewrite Hz. simpl. now apply IH.
Qed.

Section CameraAndServices.

Variable GeocoderResult : Type.
Implicit Types (ev : Event GeocoderResult) (evs : list (Event GeocoderResult)).

(** What one event does to [mapRef.current]: it stores the loaded map, or
    leaves the ref as it is, or moves the attached map. *)
Lemma dispatch_mapRef ev (w : World) :
  (exists m, ev = MapLoad m /\ mapRef (dispatch ev w) = Some m)
  \/ mapRef (dispatch ev w) = mapRef w
  \/ (exists c map, mapRef w = Some map
        /\ mapRef (dispatch ev w) =
             Some (GoogleMap.setZoom 14 (GoogleMap.panTo c map))).
Proof.
  destruct ev as [t|r s|m|e|i| |reply|text|i g l];
    try (right; left; reflexivity).
  - left. now exists m.
  - right; left. rewrite dispatch_MarkerClick.
    now destruct (nth_error (markers w) i).
  - right; left. rewrite dispatch_InfoWindowClose. now destruct (selected w).
  - unfold dispatch, Locate_render. cbv zeta. simpl LocateElement.onClick.
    fold locateCurrentPosition. rewrite exec_locate.
    destruct reply as [position|reason]; [|right; left; reflexivity].
    destruct (mapRef w) as [map|] eqn:H; [|right; left; now rewrite <- H].
    right; right. eexists. exists map. split; reflexivity.
  - right; left. unfold dispatch. cbv zeta.
    now destruct (SearchElement.disabled (Search_render panTo (places w))).
  - rewrite dispatch_OptionSelect.
    destruct (nth_error _ i) as [o|]; [|right; left; reflexivity].
    destruct (exec_select _ (fun _ => g) l (ComboboxOption.value o) w)
      as (log & moved & E).
    rewrite E. simpl.
    destruct moved as [c|]; [|right; left; reflexivity].
    destruct (mapRef w) as [map|]; [|right; left; reflexivity].
    right; right. exists c, map. split; reflexivity.
Qed.

Lemma dispatch_pairs ev (w : World) :
  loads_paired ev ->
  pan_zoom_pairs (calls_on (mapRef w)) = true ->
  pan_zoom_pairs (calls_on (mapRef (dispatch ev w))) = true.
Proof.
  intros Hev Hw.
  destruct (dispatch_mapRef ev w) as [(m & -> & E) | [E | (c & map & Hmap & E)]];
    rewrite E.
  - exact Hev.
  - exact Hw.
  - rewrite Hmap in Hw. simpl in Hw |- *. rewrite <- app_assoc.
    now apply pan_zoom_pairs_app.
Qed.

(** X3.  The program never zooms without having panned, never pans without
    zooming next, and never zooms to a level other than 14: when the maps it
    is given have a call history made of [panTo(c)], [setZoom(14)] pairs (a
    fresh map has an empty one), the history of the attached map is made of
    such pairs after any sequence of events, whatever the sensor and the
    geocoder answer. *)
Theorem camera_calls_come_in_pairs :
  forall evs (w : World),
    pan_zoom_pairs (calls_on (mapRef w)) = true ->
    Forall loads_paired evs ->
    pan_zoom_pairs (calls_on (mapRef (run evs w))) = true.
Proof.
  induction evs as [|ev evs IH]; intros w Hw Hevs; [assumption|].
  inversion Hevs as [|? ? Hev Hrest]; subst.
  rewrite run_cons. apply IH; [|assumption]. now apply dispatch_pairs.
Qed.

Lemma dispatch_attached ev (w : World) :
  attached w = true -> attached (dispatch ev w) = true.
Proof.
  unfold attached. intro H.
  destruct (dispatch_mapRef ev w) as [(m & _ & E) | [E | (c & map & _ & E)]];
    rewrite E; [reflexivity | assumption | reflexivity].
Qed.

Lemma run_attached evs :
  forall w, attached w = true -> attached (run evs w) = true.
Proof.
  induction evs as [|ev evs IH]; intros w H; [assumption|].
  rewrite run_cons. apply IH. now apply dispatch_attached.
Qed.

(** X4.  Once [onMapLoad] has run, the camera stays attached: no later
    event resets [mapRef.current], so after the map has loaded [panTo]
    completes normally on any coordinate and the Locate button never lets an
    exception out, whatever came in between and whatever the sensor
    answers. *)
Theorem camera_stays_attached :
  forall (m : GoogleMap.t) evs (w : World) (c : LatLngLiteral.t)
         (reply : SensorReply),
    attached (run (MapLoad m :: evs) w) = true
    /\ completion (panTo c) (run (MapLoad m :: evs) w) = Normal tt
    /\ completion (locateCurrentPosition reply) (run (MapLoad m :: evs) w) = Normal tt.
Proof.
  intros m evs w c reply.
  assert (H : attached (run (MapLoad m :: evs) w) = true).
  { rewrite run_cons. now apply run_attached. }
  split; [assumption|]. unfold attached in H.
  destruct (mapRef (run (MapLoad m :: evs) w)) as [map|] eqn:E; [|discriminate].
  unfold completion. split.
  - now rewrite (panTo_attached _ map c E).
  - destruct reply as [position|reason]; [|reflexivity].
    rewrite locate_found, E. reflexivity.
Qed.

(** The requests one event sends. *)
Lemma dispatch_requests ev (w : World) :
  requests (dispatch ev w) =
  requests w ++
  match ev with
  | LocateClick _ => [ReqCurrentPosition]
  | InputChange text =>
      if Places.ready (places w) then [ReqSuggestions text] else []
  | OptionSelect i _ _ =>
      match nth_error (SearchElement.options (Search_render panTo (places w))) i with
      | Some o => [ReqGeocode (ComboboxOption.value o)]
      | None => []
      end
  | _ => []
  end.
Proof.
  destruct ev as [t|r s|m|e|i| |reply|text|i g l];
    try (rewrite app_nil_r; reflexivity).
  - rewrite dispatch_MarkerClick, app_nil_r.
    now destruct (nth_error (markers w) i).
  - rewrite dispatch_InfoWindowClose, app_nil_r. now destruct (selected w).
  - unfold dispatch, Locate_render. cbv zeta. simpl LocateElement.onClick.
    fold locateCurrentPosition. rewrite exec_locate.
    destruct reply; [destruct (mapRef w)|]; reflexivity.
  - unfold dispatch. cbv zeta. simpl SearchElement.disabled.
    destruct (Places.ready (places w)); simpl; [reflexivity | now rewrite app_nil_r].
  - rewrite dispatch_OptionSelect.
    destruct (nth_error _ i) as [o|]; [|now rewrite app_nil_r].
    destruct (exec_select _ (fun _ => g) l (ComboboxOption.value o) w)
      as (log & moved & E).
    now rewrite E.
Qed.

(** X5.  One request to the position sensor per click on the Locate button,
    and none otherwise: after any sequence of events the number of sensor
    requests sent has grown by the number of Locate clicks, whether the
    sensor answered or failed (no retry).  The geocoder is asked at most
    once per selection. *)
Theorem one_sensor_request_per_locate_click :
  forall evs (w : World),
    length (filter is_ReqCurrentPosition (requests (run evs w))) =
      (length (filter is_ReqCurrentPosition (requests w))
       + length (filter is_LocateClick evs))%nat
    /\ (length (filter is_ReqGeocode (requests (run evs w))) <=
          length (filter is_ReqGeocode (requests w))
          + length (filter is_OptionSelect evs))%nat.
Proof.
  induction evs as [|ev evs IH]; intro w.
  - simpl. split; lia.
  - rewrite run_cons. destruct (IH (dispatch ev w)) as [IH1 IH2].
    rewrite IH1. rewrite dispatch_requests in IH2 |- *.
    rewrite !filter_app, !length_app in IH2 |- *.
    destruct ev as [t|r s|m|e|i| |reply|text|i g l]; simpl in IH2 |- *;
      try (split; lia).
    + destruct (Places.ready (places w)); simpl in IH2 |- *; split; lia.
    + destruct (nth_error _ i); simpl in IH2 |- *; split; lia.
Qed.

End CameraAndServices.

Lemma camera_calls_come_in_pairs_witness :
  pan_zoom_pairs (calls_on (mapRef (initial_world 0))) = true
  /\ Forall loads_paired demo_session
  /\ pan_zoom_pairs (calls_on (mapRef (run demo_session (initial_world 0)))) = true.
Proof.
  assert (L : Forall loads_paired demo_session).
  { repeat constructor. }
  split; [reflexivity|]. split; [exact L|].
  exact (camera_calls_come_in_pairs _ demo_session (initial_world 0) eq_refl L).
Defined.

(* ================================================================== *)
(** * What is rendered *)

(** X6.  The selection handler never throws, whatever the geocoder does and
    whatever [panTo] it is given: everything after its first two statements
    is inside the [try].  On the page, whatever the outcome, the box then
    shows the picked address and the list of suggestions is empty; one
    geocoding request has been sent, and markers and selection are as
    before. *)
Theorem select_never_throws :
  forall (GeocoderResult : Type)
         (geocode_settles : string -> Completion (list GeocoderResult))
         (latLng_settles : option GeocoderResult -> Completion LatLngLiteral.t)
         (panTo' : LatLngLiteral.t -> JS unit) (address : string) (w : World),
    completion (Combobox_onSelect geocode_settles latLng_settles panTo' address) w =
      Normal tt
    /\ SearchElement.value (Search_render panTo (places
         (exec (selectSuggestion geocode_settles latLng_settles address) w))) = address
    /\ SearchElement.options (Search_render panTo (places
         (exec (selectSuggestion geocode_settles latLng_settles address) w))) = []
    /\ requests (exec (selectSuggestion geocode_settles latLng_settles address) w) =
         requests w ++ [ReqGeocode address]
    /\ markers (exec (selectSuggestion geocode_settles latLng_settles address) w) =
         markers w
    /\ selected (exec (selectSuggestion geocode_settles latLng_settles address) w) =
         selected w.
Proof.
  intros GeocoderResult geocode_settles latLng_settles panTo' address w. split.
  - cbv [completion Combobox_onSelect try_catch bind setValue clearSuggestions
         getGeocode getLatLng await modify send console_log ret].
    destruct (geocode_settles address) as [results|e]; [|reflexivity].
    destruct (latLng_settles (nth_error results 0)) as [ll|e]; [|reflexivity].
    destruct (panTo' _ _) as [[[]|e] w']; reflexivity.
  - destruct (exec_select _ geocode_settles latLng_settles address w)
      as (log & moved & E).
    rewrite E. repeat split.
Qed.

Section Rendering.

Variable GeocoderResult : Type.
Implicit Types (ev : Event GeocoderResult) (evs : list (Event GeocoderResult)).

(** X7.  Every map click shows up as a marker exactly where the user
    clicked: on a page started empty, after any sequence of events, the
    rendered markers are, in click order, at the coordinates of the map
    clicks, each keyed by the ISO string of the clock reading at its click;
    and the render logs the marker array. *)
Theorem rendered_markers_follow_clicks :
  forall evs (now : Date),
    map MarkerElement.position
        (GoogleMapElement.markers (App_map (run evs (initial_world now)))) =
      map click_at (clicks_of evs now)
    /\ map MarkerElement.key
           (GoogleMapElement.markers (App_map (run evs (initial_world now)))) =
         map (fun c => toISOString (click_time c)) (clicks_of evs now)
    /\ logged (App_render None true (run evs (initial_world now))) =
         [map marker_of_click (clicks_of evs now)].
Proof.
  intros evs now. unfold App_render. simpl.
  rewrite run_markers. simpl. rewrite !map_map. repeat split.
  apply map_ext. intro c. apply latLng_eta.
Qed.

(** X8.  Opening and closing the info window.  A click on the [i]-th
    rendered marker, when there is one, puts the info window at the position
    of that marker, with the time of the marker and the current reading of
    the clock handed to the formatter, and leaves the markers as they are;
    closing the window removes it.  When fewer than [i+1] markers are
    rendered the click does nothing. *)
Theorem marker_click_opens_info_window :
  forall (w : World) (i : nat),
    match nth_error (markers w) i with
    | Some marker =>
        option_map InfoWindowElement.position
          (GoogleMapElement.infoWindow
             (App_map (dispatch (GeocoderResult := GeocoderResult) (MarkerClick i) w))) =
        option_map MarkerElement.position
          (nth_error (GoogleMapElement.markers (App_map w)) i)
        /\ option_map InfoWindowElement.p
             (GoogleMapElement.infoWindow
                (App_map (dispatch (GeocoderResult := GeocoderResult) (MarkerClick i) w))) =
           Some [Literal "Spotted"; Literal " ";
                 FormatRelative (Marker.time marker) (clock w)]
        /\ GoogleMapElement.infoWindow
             (App_map (dispatch (GeocoderResult := GeocoderResult) InfoWindowClose
                (dispatch (GeocoderResult := GeocoderResult) (MarkerClick i) w))) = None
        /\ markers (dispatch (GeocoderResult := GeocoderResult) (MarkerClick i) w) =
             markers w
    | None =>
        dispatch (GeocoderResult := GeocoderResult) (MarkerClick i) w = w
    end.
Proof.
  intros w i. rewrite rendered_marker, dispatch_MarkerClick.
  destruct (nth_error (markers w) i) as [marker|]; [|reflexivity].
  rewrite dispatch_InfoWindowClose. repeat split.
Qed.

(** X9.  The search box at its edges.  While the hook is not ready the
    input is disabled and typing changes nothing; once it is ready the typed
    text becomes the text of the box.  Suggestions are offered only under
    the status "OK": under any other status the list is empty, even with
    data, and there is nothing to select; under "OK" the options are the
    descriptions of the data, in order.  The text a selection puts in the
    box is always the description of the option picked. *)
Theorem search_box_edges :
  forall (w : World) (text : string) (i : nat)
         (geocode_reply : Completion (list GeocoderResult))
         (latLng_reply : option GeocoderResult -> Completion LatLngLiteral.t),
    SearchElement.disabled (Search_render panTo (places w)) =
      negb (Places.ready (places w))
    /\ (if Places.ready (places w)
        then Places.value (places (dispatch (GeocoderResult := GeocoderResult)
                                     (InputChange text) w)) = text
        else dispatch (GeocoderResult := GeocoderResult) (InputChange text) w = w)
    /\ (if String.eqb (Places.status (Places.suggestions (places w))) "OK"
        then map ComboboxOption.value
               (SearchElement.options (Search_render panTo (places w))) =
             map Places.description (Places.data (Places.suggestions (places w)))
        else SearchElement.options (Search_render panTo (places w)) = []
             /\ dispatch (OptionSelect i geocode_reply latLng_reply) w = w)
    /\ Places.value (places (dispatch (OptionSelect i geocode_reply latLng_reply) w)) =
         match nth_error (SearchElement.options (Search_render panTo (places w))) i with
         | Some o => ComboboxOption.value o
         | None => Places.value (places w)
         end.
Proof.
  intros w text i g l. split; [reflexivity|]. split; [|split].
  - unfold dispatch. cbv zeta. simpl SearchElement.disabled.
    now destruct (Places.ready (places w)).
  - rewrite dispatch_OptionSelect. simpl SearchElement.options.
    destruct (String.eqb _ "OK").
    + now rewrite map_map.
    + split; [reflexivity|]. now destruct i.
  - rewrite dispatch_OptionSelect.
    destruct (nth_error _ i) as [o|]; [|reflexivity].
    destruct (exec_select _ (fun _ => g) l (ComboboxOption.value o) w)
      as (log & moved & E).
    now rewrite E.
Qed.

End Rendering.

